(** * certbot-dns-rfc2136 and certbot-exim: a shallow embedding

    The two plugins of the repository are translated to Rocq functions:

    - [certbot_dns_rfc2136/dns_rfc2136.py]: the class [_RFC2136Client]
      ([__init__], [add_txt_record], [del_txt_record], [_find_domain]);
    - [certbot_exim/installer.py]: [Installer.prepare] and
      [Installer.restart].

    Python exceptions are values of type [exception]; a call either returns or
    raises ([outcome]).  Network and process I/O goes through an explicit
    world that is threaded through every call, together with the list of
    messages handed to the transport. *)

From Stdlib Require Import ZArith String Ascii List Bool Lia.
From stdpp Require Import gmap strings list.

Local Open Scope Z_scope.

(** ** Python exceptions *)

(** The exception classes the two plugins raise, catch or let through. *)
Inductive exc_class : Type :=
  | EmptyLabel | LabelTooLong | NameTooLong | BadEscape
  | AbsoluteConcatenation | NeedAbsoluteNameOrOrigin   (* dns.name *)
  | StructError                                          (* struct.error *)
  | PluginError | NoInstallationError
  | MisconfigurationError | SubprocessError              (* certbot.errors *)
  | OtherException (qualname : string).  (* socket.error, dns.exception.Timeout, ... *)

(** The text of an exception.  [str.format] is kept symbolic: a template and
    the arguments it was applied to, so that the parts of a message can be
    read back without parsing it. *)
#[warnings="-register-all"]
Inductive text : Type :=
  | Lit (s : string)
  | Names (l : list string)                       (* a list of str, as an argument *)
  | Format (template : string) (args : list text).

Record exception : Type := Exception { cls : exc_class; msg : text }.

(** [str(e)] *)
Definition str (e : exception) : text := msg e.

Inductive outcome (A : Type) : Type :=
  | Returned (a : A)
  | Raised (e : exception).
Arguments Returned {A} a.
Arguments Raised {A} e.

Definition raise_ {A} (c : exc_class) (m : string) : outcome A :=
  Raised (Exception c (Lit m)).

(** Sequencing of calls that may raise but touch no world. *)
Definition and_then {A B} (x : outcome A) (k : A -> outcome B) : outcome B :=
  match x with
  | Returned a => k a
  | Raised e => Raised e
  end.

(** ** The parts of dnspython the client uses *)

Module dns.

Module name.

(** A [dns.name.Name] is its tuple of labels; an absolute name ends with
    the empty label. *)
Definition Name : Type := list string.

Definition root : Name := [""].

Definition is_absolute (n : Name) : bool :=
  match last n with
  | Some l => String.eqb l ""
  | None => false
  end.

(** [_validate_labels]; the constructor [Name(labels)] runs it. *)
Fixpoint too_long (labels : list string) : bool :=
  match labels with
  | [] => false
  | l :: rest => (63 <? String.length l)%nat || too_long rest
  end.

Fixpoint wire_length (labels : list string) : nat :=
  match labels with
  | [] => 0
  | l :: rest => (String.length l + 1 + wire_length rest)%nat
  end.

(** index of the first empty label *)
Fixpoint first_empty (labels : list string) : option nat :=
  match labels with
  | [] => None
  | l :: rest =>
      if String.eqb l "" then Some 0%nat else S <$> first_empty rest
  end.

Definition make (labels : list string) : outcome Name :=
  if too_long labels then raise_ LabelTooLong "A DNS label is > 63 octets long."
  else if (255 <? wire_length labels)%nat
  then raise_ NameTooLong "A DNS name is > 255 octets long."
  else match first_empty labels with
       | Some i =>
           if (i =? length labels - 1)%nat then Returned labels
           else raise_ EmptyLabel "A DNS label is empty."
       | None => Returned labels
       end.

Definition isdigit (c : ascii) : bool :=
  (48 <=? nat_of_ascii c)%nat && (nat_of_ascii c <=? 57)%nat.

Definition digit (c : ascii) : nat := (nat_of_ascii c - 48)%nat.

Definition snoc (label : string) (c : ascii) : string :=
  label +:+ String c "".

(** The character loop of [from_text]: [labels] and [label] are the
    labels and the label read so far, [escaping], [edigits] and [total]
    the state of a backslash escape. *)
Fixpoint scan (text : string) (labels : list string) (label : string)
    (escaping : bool) (edigits total : nat) : outcome (list string) :=
  match text with
  | EmptyString =>
      if escaping then raise_ BadEscape "Escaped character in name is invalid."
      else Returned (labels ++ [label])
  | String c rest =>
      if escaping then
        if (edigits =? 0)%nat then
          if isdigit c then scan rest labels label true 1%nat (digit c)
          else scan rest labels (snoc label c) false edigits total
        else if negb (isdigit c)
        then raise_ BadEscape "Escaped character in name is invalid."
        else
          let total := (total * 10 + digit c)%nat in
          let edigits := (edigits + 1)%nat in
          if (edigits =? 3)%nat then
            if (255 <? total)%nat
            then raise_ StructError "ubyte format requires 0 <= number <= 255"
            else scan rest labels (snoc label (ascii_of_nat total))
                   false edigits total
          else scan rest labels label true edigits total
      else if Ascii.eqb c "." then
        if (String.length label =? 0)%nat
        then raise_ EmptyLabel "A DNS label is empty."
        else scan rest (labels ++ [label]) "" false edigits total
      else if Ascii.eqb c "\" then scan rest labels label true 0%nat 0%nat
      else scan rest labels (snoc label c) false edigits total
  end.

(** [dns.name.from_text(text, origin)]; [origin] is [None] or a name. *)
Definition from_text_origin (text : string) (origin : option Name)
    : outcome Name :=
  let text := if String.eqb text "@" then "" else text in
  if String.eqb text "." then Returned [""]
  else
    and_then
      (if String.eqb text "" then Returned [] else scan text [] "" false 0%nat 0%nat)
      (fun labels =>
         let relative :=
           match last labels with
           | Some l => negb (String.eqb l "")
           | None => true
           end in
         match origin with
         | Some o => make (if relative then labels ++ o else labels)
         | None => make labels
         end).

(** [dns.name.from_text(text)]: the origin defaults to the root. *)
Definition from_text (text : string) : outcome Name :=
  from_text_origin text (Some root).

(** bytes.lower() *)
Definition lower_ascii (c : ascii) : ascii :=
  let n := nat_of_ascii c in
  if (65 <=? n)%nat && (n <=? 90)%nat then ascii_of_nat (n + 32) else c.

Fixpoint lower (s : string) : string :=
  match s with
  | EmptyString => EmptyString
  | String c rest => String (lower_ascii c) (lower rest)
  end.

Fixpoint labels_eqb (a b : list string) : bool :=
  match a, b with
  | [], [] => true
  | x :: a', y :: b' => String.eqb x y && labels_eqb a' b'
  | _, _ => false
  end.

(** [self.is_subdomain(other)]: [fullcompare] compares the labels from
    the right, lower-cased, and answers SUBDOMAIN or EQUAL when both
    names are of the same kind (absolute or relative) and every label
    of [other] is matched. *)
Definition is_subdomain (self other : Name) : bool :=
  Bool.eqb (is_absolute self) (is_absolute other)
  && (length other <=? length self)%nat
  && labels_eqb (map lower (drop (length self - length other) self))
                (map lower other).

(** [self.relativize(origin)] with a name as origin; [self[:-len(origin)]]
    is a prefix of a valid name, which the constructor accepts. *)
Definition relativize (self origin : Name) : Name :=
  if is_subdomain self origin
  then if (length origin =? 0)%nat then []
       else take (length self - length origin) self
  else self.

(** [self.concatenate(other)] *)
Definition concatenate (self other : Name) : outcome Name :=
  if is_absolute self && (0 <? length other)%nat
  then raise_ AbsoluteConcatenation
         "An attempt was made to append anything other than the empty name to an absolute DNS name."
  else make (self ++ other).

(** The name a relative owner stands for on the wire ([to_wire] with an
    origin). *)
Definition derelativize (self origin : Name) : Name :=
  if is_absolute self then self else self ++ origin.

End name.

(** [dns.flags], [dns.rcode], [dns.rdataclass], [dns.rdatatype],
    [dns.opcode]: the numeric constants *)
Module flags.
Definition AA : Z := 0x0400.
Definition RD : Z := 0x0100.
End flags.

Module rcode.
Definition NOERROR : Z := 0.
Definition FORMERR : Z := 1.
Definition REFUSED : Z := 5.
Definition NOTAUTH : Z := 9.

(** [from_flags(flags, ednsflags)]; the masks keep the value within
    0..4095, the range the library checks. *)
Definition from_flags (flags ednsflags : Z) : Z :=
  Z.lor (Z.land flags 0x000f) (Z.land (Z.shiftr ednsflags 20) 0xff0).
End rcode.

Module rdataclass.
Definition IN : Z := 1.
Definition NONE : Z := 254.
Definition ANY : Z := 255.
End rdataclass.

Module rdatatype.
Definition SOA : Z := 6.
Definition TXT : Z := 16.
End rdatatype.

Module opcode.
Definition UPDATE : Z := 5.
Definition to_flags (value : Z) : Z := Z.land (Z.shiftl value 11) 0x7800.
End opcode.

(** [dns.tsig]: the algorithm identifiers are names *)
Module tsig.
Definition HMAC_MD5 : name.Name := ["HMAC-MD5"; "SIG-ALG"; "REG"; "INT"; ""].
Definition HMAC_SHA1 : name.Name := ["hmac-sha1"; ""].
Definition HMAC_SHA224 : name.Name := ["hmac-sha224"; ""].
Definition HMAC_SHA256 : name.Name := ["hmac-sha256"; ""].
Definition HMAC_SHA384 : name.Name := ["hmac-sha384"; ""].
Definition HMAC_SHA512 : name.Name := ["hmac-sha512"; ""].
End tsig.

(** [dns.rrset.RRset] as the sections of a message hold it.  The rdata of
    a TXT record is its list of character strings. *)
Record RRset : Type := {
  rr_name : name.Name;
  rr_rdclass : Z;
  rr_rdtype : Z;
  rr_deleting : option Z;
  rr_ttl : Z;
  rr_items : list (list string)
}.

(** [dns.message.Message]; [dns.update.Update] is the subclass that also
    has an origin, a zone class and the TSIG parameters, with [zone] and
    [update] as other names of the question and authority sections. *)
Record Message : Type := {
  flags_ : Z;
  ednsflags : Z;
  question : list RRset;
  answer : list RRset;
  authority : list RRset;
  origin : option name.Name;
  zone_rdclass : Z;
  keyring : option (list (name.Name * string));
  keyname : option name.Name;
  keyalgorithm : name.Name
}.

Module message.

(** [Message()] *)
Definition new : Message := {|
  flags_ := 0; ednsflags := 0;
  question := []; answer := []; authority := [];
  origin := None; zone_rdclass := rdataclass.IN;
  keyring := None; keyname := None; keyalgorithm := tsig.HMAC_MD5
|}.

Definition set_flags (m : Message) (f : Z) : Message := {|
  flags_ := f; ednsflags := ednsflags m;
  question := question m; answer := answer m; authority := authority m;
  origin := origin m; zone_rdclass := zone_rdclass m;
  keyring := keyring m; keyname := keyname m; keyalgorithm := keyalgorithm m
|}.

(** [find_rrset(section, ..., create=True, force_unique=True)] appends a
    fresh, empty RRset; the RRset is returned with the section. *)
Definition fresh_rrset (n : name.Name) (rdclass rdtype : Z)
    (deleting : option Z) : RRset :=
  {| rr_name := n; rr_rdclass := rdclass; rr_rdtype := rdtype;
     rr_deleting := deleting; rr_ttl := 0; rr_items := [] |}.

(** [rrset.add(rd, ttl)] on an RRset: the first rdata sets the TTL, a
    later one can only lower it. *)
Definition rrset_add (r : RRset) (rd : list string) (ttl : Z) : RRset :=
  {| rr_name := rr_name r; rr_rdclass := rr_rdclass r;
     rr_rdtype := rr_rdtype r; rr_deleting := rr_deleting r;
     rr_ttl := if (length (rr_items r) =? 0)%nat then ttl
               else if ttl <? rr_ttl r then ttl else rr_ttl r;
     rr_items := rr_items r ++ [rd] |}.

(** [make_query(qname, rdtype, rdclass)] with the defaults of the other
    arguments: RD is set, the question is the one asked. *)
Definition make_query (qname : name.Name) (rdtype rdclass : Z) : Message :=
  let m := set_flags new (Z.lor (flags_ new) flags.RD) in
  {| flags_ := flags_ m; ednsflags := ednsflags m;
     question := question m ++ [fresh_rrset qname rdclass rdtype None];
     answer := answer m; authority := authority m;
     origin := origin m; zone_rdclass := zone_rdclass m;
     keyring := keyring m; keyname := keyname m;
     keyalgorithm := keyalgorithm m |}.

(** [response.rcode()] *)
Definition rcode (m : Message) : Z :=
  rcode.from_flags (flags_ m) (ednsflags m).

End message.

Module update.

(** [Update(zone, keyring=..., keyalgorithm=...)] with [zone] a str: the
    zone name is parsed, the zone section gets its SOA question, and
    the first key of the keyring signs. *)
Definition Update (zone : string) (kr : list (name.Name * string))
    (alg : name.Name) : outcome Message :=
  and_then (name.from_text zone) (fun z =>
    Returned {|
      flags_ := Z.lor (flags_ message.new) (opcode.to_flags opcode.UPDATE);
      ednsflags := ednsflags message.new;
      question := [message.fresh_rrset z rdataclass.IN rdatatype.SOA None];
      answer := []; authority := [];
      origin := Some z; zone_rdclass := rdataclass.IN;
      keyring := Some kr;
      keyname := fst <$> head kr;
      keyalgorithm := alg |}).

(** [_add_rr(name, ttl, rd, deleting)]: a fresh RRset in the update
    section, holding [rd]. *)
Definition _add_rr (u : Message) (n : name.Name) (ttl : Z)
    (rd : list string) (rdtype : Z) (deleting : option Z) : Message :=
  let rrset := message.fresh_rrset n (zone_rdclass u) rdtype deleting in
  {| flags_ := flags_ u; ednsflags := ednsflags u;
     question := question u; answer := answer u;
     authority := authority u ++ [message.rrset_add rrset rd ttl];
     origin := origin u; zone_rdclass := zone_rdclass u;
     keyring := keyring u; keyname := keyname u;
     keyalgorithm := keyalgorithm u |}.

End update.

End dns.

(** ** certbot.plugins.dns_common *)

Module dns_common.

(** [str.split('.')] *)
Fixpoint split_dots (s : string) : list string :=
  match s with
  | EmptyString => [EmptyString]
  | String c rest =>
      if Ascii.eqb c "." then EmptyString :: split_dots rest
      else match split_dots rest with
           | l :: ls => String c l :: ls
           | [] => [String c EmptyString]
           end
  end.

(** ['.'.join(fragments)] *)
Fixpoint join_dots (fragments : list string) : string :=
  match fragments with
  | [] => EmptyString
  | [l] => l
  | l :: rest => l +:+ "." +:+ join_dots rest
  end.

(** every non-empty suffix of a list, longest first *)
Fixpoint suffixes {A} (l : list A) : list (list A) :=
  match l with
  | [] => []
  | _ :: rest => l :: suffixes rest
  end.

(** the closing dot of a fully-qualified name leaves an empty last
    fragment, which is no label of a candidate *)
Definition strip_root (fragments : list string) : list string :=
  match last fragments with
  | Some l => if String.eqb l "" then removelast fragments else fragments
  | None => fragments
  end.

Definition strip_challenge (fragments : list string) : list string :=
  match fragments with
  | l :: rest => if String.eqb l "_acme-challenge" then rest else fragments
  | [] => []
  end.

(** a label of a name: not empty, and without a dot *)
Fixpoint has_dot (s : string) : bool :=
  match s with
  | EmptyString => false
  | String c rest => Ascii.eqb c "." || has_dot rest
  end.

Definition is_label (l : string) : Prop := l <> "" /\ has_dot l = false.

(** Modelled from the spec: [certbot.plugins.dns_common] is not among the
    sources, so [base_domain_name_guesses] follows the Candidate Domain
    List of the data model and of the Zone Resolver: the DNS-01 label
    prefix is stripped, then every suffix of the name is produced, walking
    up one label at a time, most specific first and down to the top-level
    domain. *)
Definition base_domain_name_guesses (domain : string) : list string :=
  map join_dots (suffixes (strip_challenge (strip_root (split_dots domain)))).

End dns_common.

(** ** The world: what is handed to the transport, and what comes back *)

(** One call of [dns.query.udp] or [dns.query.tcp]: the message and the
    address it goes to. *)
Inductive packet : Type :=
  | Udp (q : dns.Message) (where_ : string)
  | Tcp (q : dns.Message) (where_ : string).

(** A computation that talks to the network: from a world to an outcome, the
    world after it, and the packets it handed to the transport, in order. *)
Definition io (World A : Type) : Type :=
  World -> outcome A * World * list packet.

Definition ret {World A} (a : A) : io World A :=
  fun w => (Returned a, w, []).

Definition raise {World A} (e : exception) : io World A :=
  fun w => (Raised e, w, []).

Definition lift {World A} (x : outcome A) : io World A :=
  fun w => (x, w, []).

Definition bind {World A B} (m : io World A) (k : A -> io World B)
    : io World B :=
  fun w =>
    match m w with
    | (Returned a, w1, sent1) =>
        let '(r, w2, sent2) := k a w1 in (r, w2, sent1 ++ sent2)
    | (Raised e, w1, sent1) => (Raised e, w1, sent1)
    end.

(** [try: body / except Exception as e: handler(e)] *)
Definition try_except {World A} (body : io World A)
    (handler : exception -> io World A) : io World A :=
  fun w =>
    match body w with
    | (Returned a, w1, sent1) => (Returned a, w1, sent1)
    | (Raised e, w1, sent1) =>
        let '(r, w2, sent2) := handler e w1 in (r, w2, sent1 ++ sent2)
    end.

Notation "x <- m ;; k" := (bind m (fun x => k))
  (at level 100, m at next level, right associativity).

(** [logger.debug]: the log is not part of the model. *)
Definition logger_debug {World} (_ : text) : io World unit := ret tt.

(** The result, the final world and the packets of a run. *)
Definition result {World A} (r : outcome A * World * list packet) : outcome A :=
  fst (fst r).
Definition world_after {World A} (r : outcome A * World * list packet) : World :=
  snd (fst r).
Definition sent {World A} (r : outcome A * World * list packet) : list packet :=
  snd r.

(** ** certbot_dns_rfc2136.dns_rfc2136._RFC2136Client *)

Record _RFC2136Client : Type := {
  server : string;
  keyring : list (dns.name.Name * string);
  algorithm : dns.name.Name
}.

Definition ALGORITHMS : gmap string dns.name.Name :=
  list_to_map [
    ("HMAC-MD5", dns.tsig.HMAC_MD5);
    ("HMAC-SHA1", dns.tsig.HMAC_SHA1);
    ("HMAC-SHA224", dns.tsig.HMAC_SHA224);
    ("HMAC-SHA256", dns.tsig.HMAC_SHA256);
    ("HMAC-SHA384", dns.tsig.HMAC_SHA384);
    ("HMAC-SHA512", dns.tsig.HMAC_SHA512)
  ].

(** The network and the server behind it: [dns.query.udp(q, where)] and
    [dns.query.tcp(q, where)] answer with a message or raise, and change the
    world. *)
Class Transport (World : Type) : Type := {
  query_udp : World -> dns.Message -> string -> outcome dns.Message * World;
  query_tcp : World -> dns.Message -> string -> outcome dns.Message * World
}.

(** What the client calls and the sources do not hold: the helper of the
    plugin framework and two parsers of the libraries. *)
Class Library : Type := {
(** [dns_common.base_domain_name_guesses] *)
base_domain_name_guesses : string -> list string;
(** [dns.rdata.from_text(rdclass, rdtype, text, origin)], for TXT *)
rdata_from_text :
  Z -> Z -> string -> option dns.name.Name -> outcome (list string);
(** [base64.decodestring] *)
b64decode : string -> outcome string
}.

Section Client.

Context {World : Type} {T : Transport World} {L : Library}.

Definition udp (q : dns.Message) (where_ : string) : io World dns.Message :=
  fun w => let '(r, w') := query_udp w q where_ in (r, w', [Udp q where_]).

Definition tcp (q : dns.Message) (where_ : string) : io World dns.Message :=
  fun w => let '(r, w') := query_tcp w q where_ in (r, w', [Tcp q where_]).

(** [dns.tsigkeyring.from_text({key_name: key_secret})] *)
Definition tsigkeyring_from_text (key_name key_secret : string)
    : outcome (list (dns.name.Name * string)) :=
  and_then (dns.name.from_text key_name) (fun keyname =>
  and_then (b64decode key_secret) (fun secret =>
  Returned [(keyname, secret)])).

Definition __init__ (server key_name key_secret key_algorithm : string)
    : outcome _RFC2136Client :=
  and_then (tsigkeyring_from_text key_name key_secret) (fun keyring =>
  Returned {|
    server := server;
    keyring := keyring;
    algorithm := default dns.tsig.HMAC_MD5 (ALGORITHMS !! key_algorithm)
  |}).

(** [update.add(name, ttl, rdtype, text)] *)
Definition update_add (u : dns.Message) (n : dns.name.Name) (ttl rdtype : Z)
    (s : string) : outcome dns.Message :=
  and_then (rdata_from_text (dns.zone_rdclass u) rdtype s (dns.origin u))
    (fun rd => Returned (dns.update._add_rr u n ttl rd rdtype None)).

(** [update.delete(name, rdtype, text)]: TTL 0, class NONE *)
Definition update_delete (u : dns.Message) (n : dns.name.Name) (rdtype : Z)
    (s : string) : outcome dns.Message :=
  and_then (rdata_from_text (dns.zone_rdclass u) rdtype s (dns.origin u))
    (fun rd => Returned (dns.update._add_rr u n 0 rd rdtype
                           (Some dns.rdataclass.NONE))).

(** The query of one round of the loop of [_find_domain]. *)
Definition soa_request (domain : dns.name.Name) : dns.Message :=
  let request :=
    dns.message.make_query domain dns.rdatatype.SOA dns.rdataclass.IN in
  (* Turn off Recursion Desired bit in query *)
  dns.message.set_flags request (Z.lxor (dns.flags_ request) dns.flags.RD).

(** The name of one round: [from_text], made absolute if it is not. *)
Definition guess_domain (guess : string) : outcome dns.name.Name :=
  and_then (dns.name.from_text guess) (fun domain =>
    if negb (dns.name.is_absolute domain)
    then dns.name.concatenate domain dns.name.root
    else Returned domain).

(** The test on the response of a probe. *)
Definition authoritative_soa (response : dns.Message) : bool :=
  let rcode := dns.message.rcode response in
  (rcode =? dns.rcode.NOERROR)
  && (0 <? length (dns.answer response))%nat
  && negb (Z.land (dns.flags_ response) dns.flags.AA =? 0).

(** One round of the loop: [true] when the round returns [guess]. *)
Definition probe (self : _RFC2136Client) (guess : string) : io World bool :=
  domain <- lift (guess_domain guess) ;;
  let request := soa_request domain in
  try_except
    (response <- udp request (server self) ;;
     if authoritative_soa response
     then _ <- logger_debug
                 (Format "Received authoritative SOA response for {0}" [Lit guess]) ;;
          ret true
     else _ <- logger_debug
                 (Format "No authoritative SOA record found for {0}" [Lit guess]) ;;
          ret false)
    (fun e =>
       raise (Exception PluginError
                (Format "Encountered error when making query: {0}" [str e]))).

(** [for guess in domain_name_guesses]: the guess the loop returns, or
    [None] when it runs to its end. *)
Fixpoint find_loop (self : _RFC2136Client) (guesses : list string)
    : io World (option string) :=
  match guesses with
  | [] => ret None
  | guess :: rest =>
      hit <- probe self guess ;;
      if hit : bool then ret (Some guess) else find_loop self rest
  end.

Definition _find_domain (self : _RFC2136Client) (domain_name : string)
    : io World string :=
  let domain_name_guesses := base_domain_name_guesses domain_name in
  found <- find_loop self domain_name_guesses ;;
  match found with
  | Some guess => ret guess
  | None =>
      raise (Exception PluginError
               (Format "Unable to determine base domain for {0} using names: {1}."
                  [Lit domain_name; Names domain_name_guesses]))
  end.

Definition add_txt_record (self : _RFC2136Client)
    (domain_name record_name record_content : string) (record_ttl : Z)
    : io World unit :=
  domain <- _find_domain self domain_name ;;
  n <- lift (dns.name.from_text record_name) ;;
  o <- lift (dns.name.from_text domain) ;;
  let rel := dns.name.relativize n o in
  update <- lift (dns.update.Update domain (keyring self) (algorithm self)) ;;
  update <- lift (update_add update rel record_ttl dns.rdatatype.TXT
                    record_content) ;;
  try_except
    (response <- tcp update (server self) ;;
     let rcode := dns.message.rcode response in
     if rcode =? dns.rcode.NOERROR
     then logger_debug (Lit "Successfully added TXT record")
     else ret tt)
    (fun e =>
       raise (Exception PluginError
                (Format "Encountered error adding TXT record: {0}" [str e]))).

Definition del_txt_record (self : _RFC2136Client)
    (domain_name record_name record_content : string) : io World unit :=
  domain <- _find_domain self domain_name ;;
  n <- lift (dns.name.from_text record_name) ;;
  o <- lift (dns.name.from_text domain) ;;
  let rel := dns.name.relativize n o in
  update <- lift (dns.update.Update domain (keyring self) (algorithm self)) ;;
  update <- lift (update_delete update rel dns.rdatatype.TXT record_content) ;;
  try_except
    (response <- tcp update (server self) ;;
     let rcode := dns.message.rcode response in
     if rcode =? dns.rcode.NOERROR
     then logger_debug (Lit "Successfully deleted TXT record")
     else ret tt)
    (fun e =>
       raise (Exception PluginError
                (Format "Encountered error deleting TXT record: {0}" [str e]))).

(** *** What the properties of the client are stated with *)

(** An authoritative hit, as the Zone Resolver words it: response code
    NOERROR, a non-empty answer section, and the Authoritative-Answer
    flag (bit 10 of the flags) set. *)
Definition authoritative_hit (response : dns.Message) : Prop :=
  dns.message.rcode response = dns.rcode.NOERROR
  /\ dns.answer response <> []
  /\ Z.testbit (dns.flags_ response) 10 = true.

(** [misses self w guesses w' probes]: from world [w], each of [guesses],
    probed in order, is answered by the server, none with an
    authoritative hit; [w'] is the world after the last answer and
    [probes] the queries, in order. *)
Inductive misses (self : _RFC2136Client)
    : World -> list string -> World -> list packet -> Prop :=
  | misses_nil w : misses self w [] w []
  | misses_cons w guess rest domain response w1 w2 probes :
      guess_domain guess = Returned domain ->
      query_udp w (soa_request domain) (server self) = (Returned response, w1) ->
      ~ authoritative_hit response ->
      misses self w1 rest w2 probes ->
      misses self w (guess :: rest) w2
        (Udp (soa_request domain) (server self) :: probes).

(** A packet that is an SOA probe: a UDP query with one question, of type
    SOA and class IN, and the Recursion-Desired flag (bit 8) clear. *)
Definition is_soa_probe (p : packet) : Prop :=
  match p with
  | Udp q _ =>
      (exists domain,
         dns.question q =
           [dns.message.fresh_rrset domain dns.rdataclass.IN
              dns.rdatatype.SOA None])
      /\ Z.testbit (dns.flags_ q) 8 = false
  | Tcp _ _ => False
  end.

(** [add_txt_record] and then [del_txt_record] with the same name and
    value *)
Definition add_then_del (self : _RFC2136Client)
    (domain_name record_name record_content : string) (record_ttl : Z)
    : io World unit :=
  _ <- add_txt_record self domain_name record_name record_content record_ttl ;;
  del_txt_record self domain_name record_name record_content.

End Client.

(** ** certbot_dns_rfc2136.dns_rfc2136.Authenticator *)

Module Authenticator.

(** The attribute of the authenticator its methods read: [credentials],
    which is [None] from [__init__] on and the configuration once
    [_setup_credentials] has run; [conf] reads a variable of it. *)
Record t : Type := { credentials : option (string -> string) }.

Definition description : string :=
  "Obtain certs using a DNS TXT record (if you are using BIND for DNS).".

Definition ttl : Z := 120.

Definition more_info (self : t) : string :=
  "This plugin configures a DNS TXT record to respond to a dns-01 challenge using "
  +:+ "RFC 2136 Dynamic Updates.".

Section Methods.

Context {World : Type} {T : Transport World} {L : Library}.

(** [self.credentials.conf(...)] on [None] is an [AttributeError]. *)
Definition _get_rfc2136_client (self : t) : outcome _RFC2136Client :=
  match credentials self with
  | None =>
      raise_ (OtherException "AttributeError")
        "'NoneType' object has no attribute 'conf'"
  | Some conf =>
      __init__ (conf "server") (conf "name") (conf "secret") (conf "algorithm")
  end.

Definition _perform (self : t) (domain validation_name validation : string)
    : io World unit :=
  client <- lift (_get_rfc2136_client self) ;;
  add_txt_record client domain validation_name validation ttl.

Definition _cleanup (self : t) (domain validation_name validation : string)
    : io World unit :=
  client <- lift (_get_rfc2136_client self) ;;
  del_txt_record client domain validation_name validation.

End Methods.

(** [__init__]: the credentials are not there yet. *)
Definition __init__ : t := {| credentials := None |}.

End Authenticator.

(** ** certbot_exim.installer.Installer *)

(** The machine the installer runs on, and the configuration. *)
Class Machine (System : Type) : Type := {
(** [constants.CLI_DEFAULTS['restart_cmd']] *)
restart_cmd : string;
(** [util.exe_exists(exe)]: is the command on the system path *)
exe_exists : System -> string -> bool;
(** [util.run_script(params)]: the output of the command, or the
    exception of the run *)
run_script : System -> string -> outcome (string * string) * System
}.

Section Installer.

Context {System : Type} {M : Machine System}.

Definition prepare (sys : System) : outcome unit :=
  if negb (exe_exists sys restart_cmd)
  then Raised (Exception NoInstallationError
                 (Format "Cannot find command {0}" [Lit restart_cmd]))
  else Returned tt.

(** [except errors.SubprocessError as err] takes that class only. *)
Definition restart (sys : System) : outcome unit * System :=
  match run_script sys restart_cmd with
  | (Returned _, sys') => (Returned tt, sys')
  | (Raised err, sys') =>
      match cls err with
      | SubprocessError =>
          (Raised (Exception MisconfigurationError (str err)), sys')
      | _ => (Raised err, sys')
      end
  end.

End Installer.

(** ** A server that tracks the records applied to it *)

Module model_server.

(** A record of the zone: the owner name, absolute and in lower case (DNS
    names compare without case), the type and the rdata. *)
Definition record : Type := list string * Z * list string.

Definition owner (u : dns.Message) (r : dns.RRset) : list string :=
  map dns.name.lower
    (dns.name.derelativize (dns.rr_name r) (default [] (dns.origin u))).

(** RFC 2136, 3.4.2: an RR of the zone's class is added to its RRset, and
    adding one that is there already changes nothing; an RR of class NONE
    is deleted from its RRset, and deleting one that is not there changes
    nothing; class ANY deletes the RRset. *)
Definition apply_rrset (u : dns.Message) (zone : gset record) (r : dns.RRset)
    : gset record :=
  match dns.rr_deleting r with
  | None =>
      foldr (fun rd z => {[ (owner u r, dns.rr_rdtype r, rd) ]} ∪ z)
        zone (dns.rr_items r)
  | Some c =>
      if c =? dns.rdataclass.NONE
      then foldr (fun rd z => z ∖ {[ (owner u r, dns.rr_rdtype r, rd) ]})
             zone (dns.rr_items r)
      else filter (fun x : record =>
                     ¬ (x.1.1 = owner u r ∧ x.1.2 = dns.rr_rdtype r)) zone
  end.

Definition apply_update (u : dns.Message) (zone : gset record) : gset record :=
  foldl (apply_rrset u) zone (dns.authority u).

(** the response to an update: QR and the opcode, response code NOERROR *)
Definition noerror : dns.Message :=
  dns.message.set_flags dns.message.new
    (Z.lor 0x8000 (dns.opcode.to_flags dns.opcode.UPDATE)).

(** Modelled from the spec: the mock server of the round-trip property is
    not among the sources.  Its state is the record set of the zone; it
    applies every update it receives and answers NOERROR.  What it
    answers to an SOA query is the parameter [soa]: any function of the
    query, which neither reads nor changes the record set. *)
Definition transport (soa : dns.Message -> string -> outcome dns.Message)
    : Transport (gset record) := {|
  query_udp zone q where_ := (soa q where_, zone);
  query_tcp zone u _ := (Returned noerror, apply_update u zone)
|}.

End model_server.

(** ** Concrete worlds, for running the client *)

Module examples.

(** the name a query asks about *)
Definition qname (q : dns.Message) : option dns.name.Name :=
  dns.rr_name <$> head (dns.question q).

(** an SOA answer with the AA flag, and an empty, non-authoritative one *)
Definition soa_hit (n : dns.name.Name) : dns.Message :=
  {| dns.flags_ := 0x8400; dns.ednsflags := 0;
     dns.question := [];
     dns.answer :=
       [dns.message.fresh_rrset n dns.rdataclass.IN dns.rdatatype.SOA None];
     dns.authority := [];
     dns.origin := None; dns.zone_rdclass := dns.rdataclass.IN;
     dns.keyring := None; dns.keyname := None;
     dns.keyalgorithm := dns.tsig.HMAC_MD5 |}.

Definition soa_miss : dns.Message :=
  dns.message.set_flags dns.message.new 0x8000.

(** a server holding the zone [apex] and nothing else *)
Definition serves (apex : dns.name.Name) (q : dns.Message) (_ : string)
    : outcome dns.Message :=
  match qname q with
  | Some n => if dns.name.labels_eqb n apex then Returned (soa_hit n)
              else Returned soa_miss
  | None => Returned soa_miss
  end.

(** the same server behind a network that times out on queries about
    [lost] *)
Definition serves_but (apex lost : dns.name.Name) (q : dns.Message)
    (where_ : string) : outcome dns.Message :=
  match qname q with
  | Some n =>
      if dns.name.labels_eqb n lost
      then Raised (Exception (OtherException "dns.exception.Timeout")
                     (Lit "The DNS operation timed out."))
      else serves apex q where_
  | None => serves apex q where_
  end.

(** a server that refuses every update: response code REFUSED (5) *)
Definition refused : dns.Message :=
  dns.message.set_flags dns.message.new
    (Z.lor (Z.lor 0x8000 (dns.opcode.to_flags dns.opcode.UPDATE))
       dns.rcode.REFUSED).

Definition refusing (soa : dns.Message -> string -> outcome dns.Message)
    : Transport unit := {|
  query_udp w q where_ := (soa q where_, w);
  query_tcp w _ _ := (Returned refused, w)
|}.

(** the helper as modelled, a TXT parser for plain tokens (one character
    string), and secrets left undecoded *)
Definition library : Library := {|
  base_domain_name_guesses := dns_common.base_domain_name_guesses;
  rdata_from_text _ _ s _ := Returned [s];
  b64decode s := Returned s
|}.

Definition example_com : dns.name.Name := ["example"; "com"; ""].

(** credentials of the plugin, as the INI file gives them *)
Definition conf (var : string) : string :=
  if String.eqb var "server" then "192.0.2.1"
  else if String.eqb var "name" then "keyname"
  else if String.eqb var "secret" then "secret"
  else if String.eqb var "algorithm" then "HMAC-SHA512"
  else "".

(** a library whose helper gives the name itself and its parent domains,
    and whose base64 decoder refuses everything *)
Definition strict_library : Library := {|
  base_domain_name_guesses := dns_common.base_domain_name_guesses;
  rdata_from_text _ _ s _ := Returned [s];
  b64decode _ :=
    Raised (Exception (OtherException "binascii.Error") (Lit "Incorrect padding"))
|}.

(** a server that holds [example.com] and whose TCP side is down *)
Definition tcp_down (soa : dns.Message -> string -> outcome dns.Message)
    : Transport unit := {|
  query_udp w q where_ := (soa q where_, w);
  query_tcp w _ _ :=
    (Raised (Exception (OtherException "ConnectionRefusedError")
               (Lit "[Errno 111] Connection refused")), w)
|}.

(** a machine whose state says whether the restart command is there and
    runs *)
Definition machine : Machine bool := {|
  restart_cmd := "exim4-restart";
  exe_exists sys _ := sys;
  run_script sys _ :=
    if sys then (Returned ("", ""), sys)
    else (Raised (Exception SubprocessError
                    (Lit "Unable to run the command: exim4-restart")), sys)
|}.

Definition client : _RFC2136Client :=
  {| server := "192.0.2.1";
     keyring := [(["keyname"; ""], "secret")];
     algorithm := dns.tsig.HMAC_SHA512 |}.

End examples.

(** * Properties *)

(** ** Bits of the flags *)

Lemma land_bit_zero (f : Z) (n : Z) :
  0 <= n -> (Z.land f (2 ^ n) =? 0) = negb (Z.testbit f n).
Proof.
  intros Hn.
  destruct (Z.testbit f n) eqn:Hb; simpl.
  - apply Z.eqb_neq. intros H0.
    assert (Hc : Z.testbit (Z.land f (2 ^ n)) n = true).
    { rewrite Z.land_spec, Hb, Z.pow2_bits_true by lia. reflexivity. }
    rewrite H0, Z.bits_0 in Hc. discriminate.
  - apply Z.eqb_eq. apply Z.bits_inj'. intros m Hm.
    rewrite Z.land_spec, Z.bits_0.
    destruct (Z.eq_dec n m) as [->|Hne].
    + rewrite Hb. reflexivity.
    + rewrite Z.pow2_bits_false by lia. apply andb_false_r.
Qed.

Section ClientFacts.

Context {World : Type} {T : Transport World} {L : Library}.

(** The test of the code is the test of the specification. *)
Lemma authoritative_soa_spec (response : dns.Message) :
  authoritative_soa response = true <-> authoritative_hit response.
Proof.
  unfold authoritative_soa, authoritative_hit.
  change dns.flags.AA with (2 ^ 10).
  rewrite land_bit_zero by lia.
  rewrite !andb_true_iff, negb_involutive, Z.eqb_eq, Nat.ltb_lt.
  destruct (dns.answer response); simpl; split.
  - intros [[_ H] _]. lia.
  - intros (_ & H & _). congruence.
  - intros [[H _] Hb]. repeat split; [assumption|discriminate|assumption].
  - intros (H & _ & Hb). repeat split; [assumption|lia|assumption].
Qed.

Lemma authoritative_soa_false (response : dns.Message) :
  ~ authoritative_hit response -> authoritative_soa response = false.
Proof.
  intros H. destruct (authoritative_soa response) eqn:E; [|reflexivity].
  exfalso. apply H. apply authoritative_soa_spec. exact E.
Qed.

(** One round of the loop, by the answer the transport gives. *)
Lemma probe_returned self guess domain response w w1 :
  guess_domain guess = Returned domain ->
  query_udp w (soa_request domain) (server self) = (Returned response, w1) ->
  probe self guess w =
    (Returned (authoritative_soa response), w1,
     [Udp (soa_request domain) (server self)]).
Proof.
  intros Hd Hq. unfold probe, bind, lift, try_except, udp.
  rewrite Hd. cbn. rewrite Hq.
  destruct (authoritative_soa response); reflexivity.
Qed.

Lemma probe_raised self guess domain e w w1 :
  guess_domain guess = Returned domain ->
  query_udp w (soa_request domain) (server self) = (Raised e, w1) ->
  probe self guess w =
    (Raised (Exception PluginError
               (Format "Encountered error when making query: {0}" [str e])),
     w1, [Udp (soa_request domain) (server self)]).
Proof.
  intros Hd Hq. unfold probe, bind, lift, try_except, udp.
  rewrite Hd. cbn. rewrite Hq. reflexivity.
Qed.

(** The loop walks through the guesses that miss. *)
Lemma find_loop_misses self pre rest w w1 probes :
  misses self w pre w1 probes ->
  find_loop self (pre ++ rest) w =
    (let '(r, w2, sent2) := find_loop self rest w1 in
     (r, w2, probes ++ sent2)).
Proof.
  induction 1 as [w|w guess pre' domain response wa wb probes Hd Hq Hm _ IH].
  - simpl. destruct (find_loop self rest w) as [[r w2] s2]. reflexivity.
  - cbn [app find_loop]. unfold bind at 1.
    rewrite (probe_returned _ _ _ _ _ _ Hd Hq).
    rewrite (authoritative_soa_false _ Hm).
    rewrite IH.
    destruct (find_loop self rest wb) as [[r w2] s2]. reflexivity.
Qed.

(** Lists of probes grow by one probe per guess. *)
Lemma misses_probes self w guesses w1 probes :
  misses self w guesses w1 probes ->
  Forall2 (fun guess p =>
             exists domain, guess_domain guess = Returned domain
                            /\ p = Udp (soa_request domain) (server self))
    guesses probes.
Proof.
  induction 1 as [w|w guess rest domain response wa wb probes Hd Hq Hm _ IH].
  - constructor.
  - constructor; [exists domain; split; [exact Hd|reflexivity] | exact IH].
Qed.

(** C2: zone resolution returns the first authoritative hit.  When the
    candidates before [guess] are all probed and answered without a hit,
    and the probe of [guess] is answered with response code NOERROR, a
    non-empty answer section and the AA flag, [_find_domain] returns
    [guess]; the probe of [guess] is the last packet it sends, so that no
    candidate after it is probed. *)
Theorem find_domain_first_hit self domain_name pre guess post
    w w1 w2 probes domain response :
  base_domain_name_guesses domain_name = pre ++ guess :: post ->
  misses self w pre w1 probes ->
  guess_domain guess = Returned domain ->
  query_udp w1 (soa_request domain) (server self) = (Returned response, w2) ->
  authoritative_hit response ->
  _find_domain self domain_name w =
    (Returned guess, w2, probes ++ [Udp (soa_request domain) (server self)]).
Proof.
  intros Hg Hm Hd Hq Hhit.
  apply authoritative_soa_spec in Hhit.
  unfold _find_domain, bind. rewrite Hg.
  rewrite (find_loop_misses _ _ _ _ _ _ Hm).
  cbn [find_loop]. unfold bind.
  rewrite (probe_returned _ _ _ _ _ _ Hd Hq), Hhit.
  cbn. rewrite !app_nil_r. reflexivity.
Qed.

(** C3: when every candidate is probed and answered, none with an
    authoritative hit, [_find_domain] raises a [PluginError] whose message
    is made of the name it was called with and of the list of candidates,
    in their order; the probes it sent are those of the candidates, one
    each and in the same order. *)
Theorem find_domain_exhausted self domain_name w w1 probes :
  misses self w (base_domain_name_guesses domain_name) w1 probes ->
  _find_domain self domain_name w =
    (Raised (Exception PluginError
               (Format "Unable to determine base domain for {0} using names: {1}."
                  [Lit domain_name;
                   Names (base_domain_name_guesses domain_name)])),
     w1, probes)
  /\ Forall2 (fun guess p =>
                exists domain, guess_domain guess = Returned domain
                               /\ p = Udp (soa_request domain) (server self))
       (base_domain_name_guesses domain_name) probes.
Proof.
  intros Hm. split; [|exact (misses_probes _ _ _ _ _ Hm)].
  unfold _find_domain, bind.
  rewrite <- (app_nil_r (base_domain_name_guesses domain_name)) at 1.
  rewrite (find_loop_misses _ _ _ _ _ _ Hm).
  cbn. rewrite !app_nil_r. reflexivity.
Qed.

(** C4: when the transport raises on the probe of a candidate, reached
    after the candidates before it were answered without a hit,
    [_find_domain] raises at once a [PluginError] whose message holds the
    text of the cause; that probe is the last packet sent, so that no
    candidate after it is probed. *)
Theorem find_domain_transport_failure self domain_name pre guess post
    w w1 w2 probes domain cause :
  base_domain_name_guesses domain_name = pre ++ guess :: post ->
  misses self w pre w1 probes ->
  guess_domain guess = Returned domain ->
  query_udp w1 (soa_request domain) (server self) = (Raised cause, w2) ->
  _find_domain self domain_name w =
    (Raised (Exception PluginError
               (Format "Encountered error when making query: {0}" [str cause])),
     w2, probes ++ [Udp (soa_request domain) (server self)]).
Proof.
  intros Hg Hm Hd Hq.
  unfold _find_domain, bind. rewrite Hg.
  rewrite (find_loop_misses _ _ _ _ _ _ Hm).
  cbn [find_loop]. unfold bind.
  rewrite (probe_raised _ _ _ _ _ _ Hd Hq).
  reflexivity.
Qed.

(** Every packet of one round of the loop is an SOA probe. *)
Lemma probe_sends_soa self guess w :
  Forall is_soa_probe (sent (probe self guess w)).
Proof.
  unfold probe, bind, lift, try_except, udp, sent.
  destruct (guess_domain guess) as [domain|e]; cbn; [|constructor].
  destruct (query_udp w (soa_request domain) (server self)) as [[response|e] w1];
    [destruct (authoritative_soa response)|]; cbn;
    (constructor; [|constructor]);
    (split; [exists domain; reflexivity | reflexivity]).
Qed.

Lemma find_loop_sends_soa self guesses w :
  Forall is_soa_probe (sent (find_loop self guesses w)).
Proof.
  revert w. induction guesses as [|guess rest IH]; intros w; cbn.
  - constructor.
  - unfold bind. pose proof (probe_sends_soa self guess w) as Hp.
    destruct (probe self guess w) as [[[hit|e] w1] s1]; cbn in *.
    + destruct hit; cbn.
      * rewrite app_nil_r. exact Hp.
      * specialize (IH w1).
        destruct (find_loop self rest w1) as [[r w2] s2]; cbn in *.
        apply Forall_app. split; assumption.
    + exact Hp.
Qed.

(** C7: every packet [_find_domain] hands to the transport is a UDP query
    whose one question is of type SOA and class IN, with the
    Recursion-Desired flag clear. *)
Theorem find_domain_probes_are_soa self domain_name w :
  Forall is_soa_probe (sent (_find_domain self domain_name w)).
Proof.
  unfold _find_domain, bind.
  pose proof (find_loop_sends_soa self (base_domain_name_guesses domain_name) w)
    as Hp.
  destruct (find_loop self (base_domain_name_guesses domain_name) w)
    as [[[found|e] w1] s1]; cbn in *; [|exact Hp].
  destruct found; cbn; rewrite app_nil_r; exact Hp.
Qed.

(** *** The update that is sent *)

(** [add_txt_record] after zone resolution: the update is built from the
    zone found and handed to the transport, whatever is answered. *)
Lemma add_txt_record_sends self domain_name record_name record_content
    record_ttl w w1 probes domain n o rd :
  _find_domain self domain_name w = (Returned domain, w1, probes) ->
  dns.name.from_text record_name = Returned n ->
  dns.name.from_text domain = Returned o ->
  rdata_from_text dns.rdataclass.IN dns.rdatatype.TXT record_content (Some o)
    = Returned rd ->
  exists update,
    dns.update.Update domain (keyring self) (algorithm self) = Returned update
    /\ sent (add_txt_record self domain_name record_name record_content
               record_ttl w)
       = probes ++
         [Tcp (dns.update._add_rr update (dns.name.relativize n o) record_ttl
                 rd dns.rdatatype.TXT None) (server self)].
Proof.
  intros Hf Hn Ho Hrd.
  unfold add_txt_record, bind, sent. rewrite Hf.
  unfold lift. rewrite Hn, Ho. cbn.
  unfold dns.update.Update. rewrite Ho. cbn.
  eexists. split; [reflexivity|].
  unfold update_add. cbn. rewrite Hrd. cbn.
  unfold try_except, tcp.
  destruct (query_tcp w1 _ (server self)) as [[response|e] w2]; cbn.
  - destruct (dns.message.rcode response =? dns.rcode.NOERROR); reflexivity.
  - reflexivity.
Qed.

(** Whatever the response code of the answer to the update is,
    [add_txt_record] and [del_txt_record] return normally. *)
Lemma add_txt_record_answered self domain_name record_name record_content
    record_ttl w w1 w2 probes domain n o rd update response :
  _find_domain self domain_name w = (Returned domain, w1, probes) ->
  dns.name.from_text record_name = Returned n ->
  dns.name.from_text domain = Returned o ->
  rdata_from_text dns.rdataclass.IN dns.rdatatype.TXT record_content (Some o)
    = Returned rd ->
  dns.update.Update domain (keyring self) (algorithm self) = Returned update ->
  query_tcp w1
    (dns.update._add_rr update (dns.name.relativize n o) record_ttl rd
       dns.rdatatype.TXT None) (server self) = (Returned response, w2) ->
  result (add_txt_record self domain_name record_name record_content
            record_ttl w) = Returned tt.
Proof.
  intros Hf Hn Ho Hrd Hu Hq.
  unfold add_txt_record, bind, result. rewrite Hf.
  unfold lift. rewrite Hn, Ho. cbn. rewrite Hu. cbn.
  unfold dns.update.Update in Hu. rewrite Ho in Hu. cbn in Hu.
  injection Hu as <-.
  unfold update_add. cbn. rewrite Hrd. cbn.
  unfold try_except, tcp. cbn in Hq. rewrite Hq. cbn.
  destruct (dns.message.rcode response =? dns.rcode.NOERROR); reflexivity.
Qed.

Lemma del_txt_record_answered self domain_name record_name record_content
    w w1 w2 probes domain n o rd update response :
  _find_domain self domain_name w = (Returned domain, w1, probes) ->
  dns.name.from_text record_name = Returned n ->
  dns.name.from_text domain = Returned o ->
  rdata_from_text dns.rdataclass.IN dns.rdatatype.TXT record_content (Some o)
    = Returned rd ->
  dns.update.Update domain (keyring self) (algorithm self) = Returned update ->
  query_tcp w1
    (dns.update._add_rr update (dns.name.relativize n o) 0 rd
       dns.rdatatype.TXT (Some dns.rdataclass.NONE)) (server self)
    = (Returned response, w2) ->
  result (del_txt_record self domain_name record_name record_content w)
  = Returned tt.
Proof.
  intros Hf Hn Ho Hrd Hu Hq.
  unfold del_txt_record, bind, result. rewrite Hf.
  unfold lift. rewrite Hn, Ho. cbn. rewrite Hu. cbn.
  unfold dns.update.Update in Hu. rewrite Ho in Hu. cbn in Hu.
  injection Hu as <-.
  unfold update_delete. cbn. rewrite Hrd. cbn.
  unfold try_except, tcp. cbn in Hq. rewrite Hq. cbn.
  destruct (dns.message.rcode response =? dns.rcode.NOERROR); reflexivity.
Qed.

Lemma from_text_challenge_www :
  dns.name.from_text "_acme-challenge.www.example.com"
  = Returned ["_acme-challenge"; "www"; "example"; "com"; ""].
Proof. vm_compute. reflexivity. Qed.

Lemma from_text_example_com :
  dns.name.from_text "example.com" = Returned ["example"; "com"; ""].
Proof. vm_compute. reflexivity. Qed.

(** C6: with [example.com] resolved as the zone, [add_txt_record] for the
    record name [_acme-challenge.www.example.com] hands to the transport,
    after the probes, one UPDATE message: its zone is [example.com], and
    its update section is a single TXT record of class IN whose owner is
    the relative name [_acme-challenge.www], with the TTL given. *)
Theorem add_txt_record_relative_owner self domain_name record_content
    record_ttl w w1 probes rd :
  _find_domain self domain_name w = (Returned "example.com", w1, probes) ->
  rdata_from_text dns.rdataclass.IN dns.rdatatype.TXT record_content
    (Some ["example"; "com"; ""]) = Returned rd ->
  exists update,
    sent (add_txt_record self domain_name "_acme-challenge.www.example.com"
            record_content record_ttl w)
    = probes ++ [Tcp update (server self)]
    /\ dns.origin update = Some ["example"; "com"; ""]
    /\ dns.question update =
         [dns.message.fresh_rrset ["example"; "com"; ""] dns.rdataclass.IN
            dns.rdatatype.SOA None]
    /\ dns.authority update =
         [{| dns.rr_name := ["_acme-challenge"; "www"];
             dns.rr_rdclass := dns.rdataclass.IN;
             dns.rr_rdtype := dns.rdatatype.TXT;
             dns.rr_deleting := None;
             dns.rr_ttl := record_ttl;
             dns.rr_items := [rd] |}].
Proof.
  intros Hf Hrd.
  destruct (add_txt_record_sends self domain_name
              "_acme-challenge.www.example.com" record_content record_ttl
              w w1 probes "example.com" _ _ rd Hf
              from_text_challenge_www from_text_example_com Hrd)
    as (update & Hu & Hs).
  unfold dns.update.Update in Hu. rewrite from_text_example_com in Hu.
  cbn in Hu. injection Hu as <-.
  eexists. split; [exact Hs|].
  repeat split.
Qed.

(** *** Construction of the client *)

Lemma ALGORITHMS_unknown (key_algorithm : string) :
  key_algorithm ∉ ["HMAC-MD5"; "HMAC-SHA1"; "HMAC-SHA224"; "HMAC-SHA256";
                   "HMAC-SHA384"; "HMAC-SHA512"] ->
  ALGORITHMS !! key_algorithm = None.
Proof.
  intros H. unfold ALGORITHMS. apply not_elem_of_list_to_map_1. exact H.
Qed.

(** C9: for a [key_algorithm] that is none of the six names of
    [ALGORITHMS], and a key name and secret the keyring is built from,
    [__init__] returns a client, and the algorithm of that client is
    HMAC-MD5: the unknown name is not rejected. *)
Theorem init_unknown_algorithm_is_md5 server_ key_name key_secret
    key_algorithm kr :
  key_algorithm ∉ ["HMAC-MD5"; "HMAC-SHA1"; "HMAC-SHA224"; "HMAC-SHA256";
                   "HMAC-SHA384"; "HMAC-SHA512"] ->
  tsigkeyring_from_text key_name key_secret = Returned kr ->
  __init__ server_ key_name key_secret key_algorithm =
    Returned {| server := server_; keyring := kr;
                algorithm := dns.tsig.HMAC_MD5 |}.
Proof.
  intros Hk Hkr. unfold __init__.
  rewrite Hkr, (ALGORITHMS_unknown _ Hk). reflexivity.
Qed.

End ClientFacts.

(** ** The installer *)

Section InstallerFacts.

Context {System : Type} {M : Machine System}.

(** C10: [prepare] raises [NoInstallationError] exactly when the restart
    command is not on the system path, and [restart] raises
    [MisconfigurationError] exactly when running the restart command raises
    [SubprocessError]; the error of [restart] carries the text of that
    one.  [util.run_script] is taken to signal the failure of a run by
    [SubprocessError], not by raising a [MisconfigurationError] of its
    own, which [restart] would let through. *)
Theorem installer_errors (sys : System) :
  (forall m, fst (run_script sys restart_cmd)
             <> Raised (Exception MisconfigurationError m)) ->
  ((exists m, prepare sys = Raised (Exception NoInstallationError m))
   <-> exe_exists sys restart_cmd = false)
  /\ ((exists m, fst (restart sys) = Raised (Exception MisconfigurationError m))
      <-> (exists m, fst (run_script sys restart_cmd)
                     = Raised (Exception SubprocessError m)))
  /\ (forall m, fst (run_script sys restart_cmd)
                = Raised (Exception SubprocessError m) ->
                fst (restart sys) = Raised (Exception MisconfigurationError m)).
Proof.
  intros Hrun. unfold prepare, restart.
  repeat split.
  - intros [m H]. destruct (exe_exists sys restart_cmd); [discriminate|reflexivity].
  - intros ->. eexists. reflexivity.
  - intros [m H].
    destruct (run_script sys restart_cmd) as [[out|[c t]] sys']; cbn in *;
      [discriminate|].
    destruct c; cbn in H; try discriminate.
    + injection H as <-. exfalso. apply (Hrun t). reflexivity.
    + eexists. reflexivity.
  - intros [m H].
    destruct (run_script sys restart_cmd) as [[out|[c t]] sys']; cbn in *;
      [discriminate|].
    injection H as -> ->. eexists. reflexivity.
  - intros m H.
    destruct (run_script sys restart_cmd) as [[out|[c t]] sys']; cbn in *;
      [discriminate|].
    injection H as -> ->. reflexivity.
Qed.

End InstallerFacts.

(** ** The candidate domain list *)

Section Candidates.

Import dns_common.

Lemma split_dots_nonempty (s : string) : split_dots s <> [].
Proof.
  destruct s as [|c s]; simpl; [discriminate|].
  destruct (Ascii.eqb c "."); [discriminate|].
  destruct (split_dots s); discriminate.
Qed.

Lemma split_dots_label (l : string) : has_dot l = false -> split_dots l = [l].
Proof.
  induction l as [|c l IH]; simpl; [reflexivity|].
  intros H. apply orb_false_iff in H as [Hc Hl].
  rewrite Hc, (IH Hl). reflexivity.
Qed.

Lemma split_dots_cons (l s : string) :
  has_dot l = false -> split_dots (l +:+ "." +:+ s) = l :: split_dots s.
Proof.
  induction l as [|c l IH]; simpl; [reflexivity|].
  intros H. apply orb_false_iff in H as [Hc Hl].
  rewrite Hc, (IH Hl). reflexivity.
Qed.

Lemma split_dots_closing_dot (s : string) :
  split_dots (s +:+ ".") = split_dots s ++ [""].
Proof.
  induction s as [|c s IH]; simpl; [reflexivity|].
  destruct (Ascii.eqb c "."); [rewrite IH; reflexivity|].
  rewrite IH. pose proof (split_dots_nonempty s) as Hne.
  destruct (split_dots s); [congruence|reflexivity].
Qed.

Lemma append_empty (s : string) : s +:+ "" = s.
Proof.
  induction s as [|c s IH]; [reflexivity|].
  change (String c (s +:+ "") = String c s). rewrite IH. reflexivity.
Qed.

(** Splitting undoes joining, on labels. *)
Lemma split_join_dots (labels : list string) :
  labels <> [] -> Forall is_label labels ->
  split_dots (join_dots labels) = labels.
Proof.
  induction labels as [|l rest IH]; [congruence|].
  intros _ Hl. apply Forall_cons in Hl as [[_ Hd] Hrest].
  destruct rest as [|l2 rest].
  - simpl. apply split_dots_label, Hd.
  - change (join_dots (l :: l2 :: rest))
      with (l +:+ "." +:+ join_dots (l2 :: rest)).
    rewrite (split_dots_cons _ _ Hd), IH; [reflexivity|discriminate|exact Hrest].
Qed.

Lemma strip_root_closing (fragments : list string) :
  strip_root (fragments ++ [""]) = fragments.
Proof.
  unfold strip_root. rewrite last_snoc. simpl. apply removelast_last.
Qed.

Lemma strip_root_labels (labels : list string) :
  Forall is_label labels -> strip_root labels = labels.
Proof.
  intros H. unfold strip_root.
  destruct (last labels) as [l|] eqn:E; [|reflexivity].
  apply last_Some_elem_of in E.
  rewrite Forall_forall in H. destruct (H l E) as [Hne _].
  apply String.eqb_neq in Hne. rewrite Hne. reflexivity.
Qed.

Lemma suffixes_drop {A} (l : list A) :
  suffixes l = map (fun i => drop i l) (seq 0 (length l)).
Proof.
  induction l as [|a l IH]; [reflexivity|].
  cbn [suffixes length seq map]. rewrite drop_0. f_equal.
  rewrite <- seq_shift, map_map, IH. reflexivity.
Qed.

(** C5: for a record name that begins with the label [_acme-challenge],
    followed by the labels [labels] and closed by a dot or not, the
    candidate domain list holds, for each position of [labels] from the
    first on, the labels from that position to the last one, joined by
    dots: the challenge label is in none of them, the name without it is
    the first, each next one has a label less, and the top-level label is
    the last. *)
Theorem candidates_of_challenge_name (labels : list string) (dot : bool) :
  labels <> [] ->
  Forall is_label labels ->
  base_domain_name_guesses
    ("_acme-challenge." +:+ join_dots labels +:+ (if dot then "." else ""))
  = map (fun i => join_dots (drop i labels)) (seq 0 (length labels)).
Proof.
  intros Hne Hl. unfold base_domain_name_guesses.
  change ("_acme-challenge." +:+ ?x) with ("_acme-challenge" +:+ "." +:+ x).
  rewrite split_dots_cons by reflexivity.
  assert (Hs : strip_challenge
                 (strip_root
                    ("_acme-challenge"
                     :: split_dots (join_dots labels +:+ (if dot then "." else ""))))
               = labels).
  { destruct dot; cbv iota.
    - rewrite split_dots_closing_dot, (split_join_dots _ Hne Hl).
      rewrite app_comm_cons, strip_root_closing. reflexivity.
    - rewrite append_empty, (split_join_dots _ Hne Hl).
      rewrite strip_root_labels; [reflexivity|].
      constructor; [split; [discriminate|reflexivity]|exact Hl]. }
  rewrite Hs, suffixes_drop, map_map. reflexivity.
Qed.

End Candidates.

(** ** Names *)

Section Names.

Import dns.name.

Lemma first_empty_None (l : list string) :
  first_empty l = None -> forall j, l !! j <> Some "".
Proof.
  induction l as [|x l IH]; simpl; intros H j Hj; [discriminate|].
  destruct (String.eqb x "") eqn:Ex; [discriminate|].
  destruct (first_empty l); [discriminate|].
  destruct j as [|j]; simpl in Hj.
  - injection Hj as ->. discriminate.
  - exact (IH eq_refl j Hj).
Qed.

Lemma first_empty_Some (l : list string) (i : nat) :
  first_empty l = Some i -> forall j, l !! j = Some "" -> (i <= j)%nat.
Proof.
  revert i. induction l as [|x l IH]; simpl; intros i H j Hj; [discriminate|].
  destruct (String.eqb x "") eqn:Ex.
  - injection H as <-. lia.
  - destruct (first_empty l) as [i'|]; [|discriminate].
    injection H as <-.
    destruct j as [|j]; simpl in Hj.
    + injection Hj as ->. discriminate.
    + specialize (IH i' eq_refl j Hj). lia.
Qed.

(** A name the constructor accepts is the list of labels it was given,
    and only its last label can be the empty one. *)
Lemma make_Returned (labels : list string) (n : Name) :
  make labels = Returned n ->
  n = labels
  /\ forall j, labels !! j = Some "" -> j = (length labels - 1)%nat.
Proof.
  unfold make, raise_.
  destruct (too_long labels); [discriminate|].
  destruct (255 <? wire_length labels)%nat; [discriminate|].
  destruct (first_empty labels) as [i|] eqn:E.
  - destruct (i =? length labels - 1)%nat eqn:Ei; [|discriminate].
    apply Nat.eqb_eq in Ei. intros [= <-]. split; [reflexivity|].
    intros j Hj. pose proof (first_empty_Some _ _ E j Hj).
    apply lookup_lt_Some in Hj. lia.
  - intros [= <-]. split; [reflexivity|].
    intros j Hj. destruct (first_empty_None _ E j Hj).
Qed.

(** [from_text] with the root as origin returns absolute names. *)
Lemma from_text_valid (s : string) (n : Name) :
  from_text s = Returned n ->
  is_absolute n = true
  /\ forall j, n !! j = Some "" -> j = (length n - 1)%nat.
Proof.
  unfold from_text, from_text_origin.
  destruct (String.eqb (if String.eqb s "@" then "" else s) ".").
  { intros [= <-]. split; [reflexivity|].
    intros [|j] Hj; [reflexivity|discriminate]. }
  destruct (if String.eqb (if String.eqb s "@" then "" else s) ""
            then Returned []
            else scan (if String.eqb s "@" then "" else s) [] "" false 0 0)
    as [labels|e]; [|discriminate].
  cbn [and_then]. intros H. apply make_Returned in H as [-> Hj].
  split; [|exact Hj].
  unfold is_absolute, root.
  destruct (last labels) as [l|] eqn:El.
  - destruct (String.eqb l "") eqn:E; cbn [negb].
    + rewrite El, E. reflexivity.
    + rewrite last_snoc. reflexivity.
  - rewrite last_snoc. reflexivity.
Qed.

Lemma labels_eqb_eq (a b : list string) : labels_eqb a b = true -> a = b.
Proof.
  revert b. induction a as [|x a IH]; intros [|y b]; simpl; try discriminate;
    [reflexivity|].
  intros H. apply andb_true_iff in H as [Hx Hab].
  apply String.eqb_eq in Hx. rewrite Hx, (IH b Hab). reflexivity.
Qed.

Lemma is_absolute_nonempty (n : Name) : is_absolute n = true -> n <> [].
Proof. intros H ->. discriminate. Qed.

(** A proper prefix of a name whose only empty label is the last one is a
    relative name. *)
Lemma take_relative (n : Name) (k : nat) :
  (forall j, n !! j = Some "" -> j = (length n - 1)%nat) ->
  (k < length n)%nat ->
  is_absolute (take k n) = false.
Proof.
  intros Hn Hk. unfold is_absolute.
  destruct (last (take k n)) as [l|] eqn:El; [|reflexivity].
  destruct (String.eqb l "") eqn:E; [|reflexivity].
  apply String.eqb_eq in E. subst l.
  rewrite last_lookup, length_take in El.
  replace (k `min` length n)%nat with k in El by lia.
  destruct k as [|k]; [discriminate|].
  cbn [pred] in El.
  rewrite lookup_take_lt in El by lia.
  specialize (Hn k El). lia.
Qed.

(** The owner the server reads off an update is the record name, up to
    the case of the letters: relativizing against the zone and putting the
    zone back gives the name. *)
Lemma relativize_owner (n o : Name) :
  is_absolute n = true ->
  (forall j, n !! j = Some "" -> j = (length n - 1)%nat) ->
  is_absolute o = true ->
  map lower (derelativize (relativize n o) o) = map lower n.
Proof.
  intros Hn Hj Ho. unfold relativize.
  destruct (is_subdomain n o) eqn:Hsub.
  - pose proof (is_absolute_nonempty _ Ho) as Hne.
    assert (Hlen : (0 < length o)%nat) by (destruct o; [congruence|simpl; lia]).
    replace (length o =? 0)%nat with false
      by (symmetry; apply Nat.eqb_neq; lia).
    unfold is_subdomain in Hsub.
    apply andb_true_iff in Hsub as [Hsub Heq].
    apply andb_true_iff in Hsub as [_ Hle].
    apply Nat.leb_le in Hle. apply labels_eqb_eq in Heq.
    pose proof (is_absolute_nonempty _ Hn) as Hnn.
    assert (Hln : (0 < length n)%nat) by (destruct n; [congruence|simpl; lia]).
    unfold derelativize.
    rewrite (take_relative n (length n - length o) Hj) by lia.
    rewrite map_app, <- Heq, <- map_app, take_drop. reflexivity.
  - unfold derelativize. rewrite Hn. reflexivity.
Qed.

End Names.

(** ** The client against the server that tracks records *)

Section ModelServer.

Context {L : Library}.
Variable soa : dns.Message -> string -> outcome dns.Message.

Let T : Transport (gset model_server.record) := model_server.transport soa.
Local Existing Instance T.

(** Zone resolution neither reads nor changes the record set. *)
Lemma probe_model self guess :
  exists r probes, forall zone, probe self guess zone = (r, zone, probes).
Proof.
  unfold probe, bind, lift, try_except, udp.
  destruct (guess_domain guess) as [domain|e]; cbn.
  - destruct (soa (soa_request domain) (server self)) as [response|e]; cbn.
    + destruct (authoritative_soa response); cbn; eauto.
    + eauto.
  - eauto.
Qed.

Lemma find_loop_model self guesses :
  exists r probes, forall zone, find_loop self guesses zone = (r, zone, probes).
Proof.
  induction guesses as [|guess rest (r & probes & IH)]; cbn [find_loop].
  - unfold ret. eauto.
  - destruct (probe_model self guess) as (hit & probes1 & Hp).
    unfold bind. destruct hit as [[|]|e].
    + eexists _, _. intros zone. rewrite Hp. cbn. reflexivity.
    + eexists _, _. intros zone. rewrite Hp, IH. reflexivity.
    + eexists _, _. intros zone. rewrite Hp. reflexivity.
Qed.

Lemma find_domain_model self domain_name :
  exists r probes,
    forall zone, _find_domain self domain_name zone = (r, zone, probes).
Proof.
  unfold _find_domain, bind.
  destruct (find_loop_model self (base_domain_name_guesses domain_name))
    as ([[guess|]|e] & probes & Hl);
    eexists _, _; intros zone; rewrite Hl; cbn; reflexivity.
Qed.

(** What the two operations do to the record set: either the addition
    raises before anything is sent, or both send their update, which the
    server applies to the record of the name and value. *)
Lemma updates_model self domain_name record_name record_content record_ttl :
  (forall zone,
     world_after (add_txt_record self domain_name record_name record_content
                    record_ttl zone) = zone
     /\ exists e,
         result (add_txt_record self domain_name record_name record_content
                   record_ttl zone) = Raised e)
  \/ (exists n o rd,
        dns.name.from_text record_name = Returned n
        /\ dns.name.is_absolute o = true
        /\ rdata_from_text dns.rdataclass.IN dns.rdatatype.TXT record_content
             (Some o) = Returned rd
        /\ forall zone,
            result (add_txt_record self domain_name record_name
                      record_content record_ttl zone) = Returned tt
            /\ world_after (add_txt_record self domain_name record_name
                              record_content record_ttl zone)
               = {[ (map dns.name.lower
                       (dns.name.derelativize (dns.name.relativize n o) o),
                     dns.rdatatype.TXT, rd) ]} ∪ zone
            /\ world_after (del_txt_record self domain_name record_name
                              record_content zone)
               = zone ∖ {[ (map dns.name.lower
                              (dns.name.derelativize (dns.name.relativize n o) o),
                            dns.rdatatype.TXT, rd) ]}).
Proof.
  destruct (find_domain_model self domain_name) as ([domain|e] & probes & Hf).
  2:{ left. intros zone. unfold add_txt_record, bind. rewrite Hf. cbn. eauto. }
  destruct (dns.name.from_text record_name) as [n|e] eqn:Hn.
  2:{ left. intros zone. unfold add_txt_record, bind, lift.
      rewrite Hf, Hn. cbn. eauto. }
  destruct (dns.name.from_text domain) as [o|e] eqn:Ho.
  2:{ left. intros zone. unfold add_txt_record, bind, lift.
      rewrite Hf, Hn, Ho. cbn. eauto. }
  destruct (rdata_from_text dns.rdataclass.IN dns.rdatatype.TXT record_content
              (Some o)) as [rd|e] eqn:Hrd.
  2:{ left. intros zone.
      unfold add_txt_record, bind, lift, update_add, dns.update.Update.
      rewrite Hf, Hn, Ho. cbn. rewrite Hrd. cbn. eauto. }
  right. exists n, o, rd.
  split; [reflexivity|].
  split; [exact (proj1 (from_text_valid _ _ Ho))|].
  split; [exact Hrd|].
  intros zone.
  unfold add_txt_record, del_txt_record, bind, lift, update_add, update_delete,
    dns.update.Update.
  rewrite !Hf, !Hn, !Ho. cbn. rewrite !Hrd.
  split; [reflexivity|]. split; reflexivity.
Qed.

(** C8, for a record that is not in the zone yet: against the server that
    tracks records and answers NOERROR, from a record set that does not
    hold the TXT record of the name and value, [add_txt_record] followed by
    [del_txt_record] with that name and value leaves the record set as it
    was. *)
Theorem add_then_del_restores_zone (self : _RFC2136Client)
    (domain_name record_name record_content : string) (record_ttl : Z)
    (zone : gset model_server.record) :
  (forall n o rd,
     dns.name.from_text record_name = Returned n ->
     rdata_from_text dns.rdataclass.IN dns.rdatatype.TXT record_content o
       = Returned rd ->
     (map dns.name.lower n, dns.rdatatype.TXT, rd) ∉ zone) ->
  world_after (add_then_del self domain_name record_name record_content
                 record_ttl zone) = zone.
Proof.
  intros Hfresh.
  destruct (updates_model self domain_name record_name record_content
              record_ttl)
    as [Hfail | (n & o & rd & Hn & Ho & Hrd & Hrun)].
  - destruct (Hfail zone) as [Hw [e He]].
    unfold add_then_del, bind, world_after, result in *.
    destruct (add_txt_record self domain_name record_name record_content
                record_ttl zone) as [[r w1] s1].
    cbn in *. subst. reflexivity.
  - destruct (Hrun zone) as (Hr & Hw & _).
    destruct (from_text_valid _ _ Hn) as [Habs Hlast].
    rewrite (relativize_owner n o Habs Hlast Ho) in Hw.
    unfold add_then_del, bind, world_after, result in *.
    destruct (add_txt_record self domain_name record_name record_content
                record_ttl zone) as [[r w1] s1].
    cbn in Hr, Hw. subst r w1.
    destruct (Hrun ({[(map dns.name.lower n, dns.rdatatype.TXT, rd)]} ∪ zone))
      as (_ & _ & Hd).
    rewrite (relativize_owner n o Habs Hlast Ho) in Hd.
    destruct (del_txt_record self domain_name record_name record_content _)
      as [[r2 w2] s2].
    cbn in Hd |- *. subst w2.
    specialize (Hfresh n (Some o) rd Hn Hrd).
    apply set_eq. intros x.
    rewrite elem_of_difference, elem_of_union, elem_of_singleton.
    split.
    + intros [[->|Hx] Hne]; [destruct (Hne eq_refl)|exact Hx].
    + intros Hx. split; [right; exact Hx|].
      intros ->. exact (Hfresh Hx).
Qed.

End ModelServer.

(** * The properties at concrete inputs *)

Import examples.

(** C1: a server that answers the probe for [example.com] with an
    authoritative SOA and every update with response code REFUSED.
    [add_txt_record] and [del_txt_record] hand their update to the
    transport, get the REFUSED response, and return normally: no error
    is raised. *)
Theorem refused_update_returns_normally :
  dns.message.rcode refused = dns.rcode.REFUSED
  /\ (exists update,
        add_txt_record (T := refusing (serves example_com)) (L := library)
          client "example.com" "_acme-challenge.example.com" "token" 120 tt
        = (Returned tt, tt,
           [Udp (soa_request example_com) "192.0.2.1";
            Tcp update "192.0.2.1"])
        /\ query_tcp (Transport := refusing (serves example_com))
             tt update "192.0.2.1" = (Returned refused, tt))
  /\ (exists update,
        del_txt_record (T := refusing (serves example_com)) (L := library)
          client "example.com" "_acme-challenge.example.com" "token" tt
        = (Returned tt, tt,
           [Udp (soa_request example_com) "192.0.2.1";
            Tcp update "192.0.2.1"])
        /\ query_tcp (Transport := refusing (serves example_com))
             tt update "192.0.2.1" = (Returned refused, tt)).
Proof.
  split; [reflexivity|].
  split; eexists; (split; [vm_compute; reflexivity|reflexivity]).
Qed.

(** C8 as stated, for every record set, fails: when the TXT record is in
    the zone before it is added, the addition changes nothing and the
    deletion removes it, so that the record set ends without it. *)
Lemma existing_record_is_lost :
  world_after
    (add_then_del (T := model_server.transport (serves example_com))
       (L := library) client "www.example.com"
       "_acme-challenge.www.example.com" "token" 120
       {[ (["_acme-challenge"; "www"; "example"; "com"; ""],
           dns.rdatatype.TXT, ["token"]) ]})
  <> {[ (["_acme-challenge"; "www"; "example"; "com"; ""],
         dns.rdatatype.TXT, ["token"]) ]}.
Proof.
  assert (H : world_after
    (add_then_del (T := model_server.transport (serves example_com))
       (L := library) client "www.example.com"
       "_acme-challenge.www.example.com" "token" 120
       {[ (["_acme-challenge"; "www"; "example"; "com"; ""],
           dns.rdatatype.TXT, ["token"]) ]}) = ∅).
  { vm_compute. reflexivity. }
  rewrite H. intros Heq.
  assert (Hin : (["_acme-challenge"; "www"; "example"; "com"; ""],
           dns.rdatatype.TXT, ["token"]) ∈ (∅ : gset model_server.record)).
  { rewrite Heq. apply elem_of_singleton. reflexivity. }
  exact (not_elem_of_empty _ Hin).
Qed.

(** *** The theorems with hypotheses, applied *)

(** the probe of [www.example.com], which the server of [example.com]
    answers without a hit *)
Lemma www_misses (soa : dns.Message -> string -> outcome dns.Message) :
  soa (soa_request ["www"; "example"; "com"; ""]) "192.0.2.1"
  = Returned soa_miss ->
  misses (T := model_server.transport soa) client ∅ ["www.example.com"] ∅
    [Udp (soa_request ["www"; "example"; "com"; ""]) "192.0.2.1"].
Proof.
  intros Hsoa.
  apply (misses_cons (T := model_server.transport soa) client ∅
           "www.example.com" [] ["www"; "example"; "com"; ""] soa_miss ∅ ∅ []).
  - vm_compute. reflexivity.
  - cbn. rewrite Hsoa. reflexivity.
  - intros (_ & Hanswer & _). apply Hanswer. reflexivity.
  - apply misses_nil.
Defined.

Lemma find_domain_first_hit_witness :
  _find_domain (T := model_server.transport (serves example_com))
    (L := library) client "www.example.com" ∅
  = (Returned "example.com", ∅,
     [Udp (soa_request ["www"; "example"; "com"; ""]) "192.0.2.1";
      Udp (soa_request example_com) "192.0.2.1"]).
Proof.
  apply (find_domain_first_hit (T := model_server.transport (serves example_com))
           (L := library) client "www.example.com"
           ["www.example.com"] "example.com" ["com"] ∅ ∅ ∅
           [Udp (soa_request ["www"; "example"; "com"; ""]) "192.0.2.1"]
           example_com (soa_hit example_com)).
  - vm_compute. reflexivity.
  - apply www_misses. reflexivity.
  - vm_compute. reflexivity.
  - reflexivity.
  - repeat split. discriminate.
Defined.

Lemma find_domain_exhausted_witness :
  _find_domain (T := model_server.transport (serves example_com))
    (L := library) client "example.org" ∅
  = (Raised (Exception PluginError
               (Format "Unable to determine base domain for {0} using names: {1}."
                  [Lit "example.org"; Names ["example.org"; "org"]])),
     ∅,
     [Udp (soa_request ["example"; "org"; ""]) "192.0.2.1";
      Udp (soa_request ["org"; ""]) "192.0.2.1"]).
Proof.
  refine (proj1 (find_domain_exhausted
           (T := model_server.transport (serves example_com))
           (L := library) client "example.org" ∅ ∅
           [Udp (soa_request ["example"; "org"; ""]) "192.0.2.1";
            Udp (soa_request ["org"; ""]) "192.0.2.1"] _)).
  change (base_domain_name_guesses "example.org") with ["example.org"; "org"].
  apply (misses_cons (T := model_server.transport (serves example_com)) client ∅
           "example.org" ["org"] ["example"; "org"; ""] soa_miss ∅ ∅
           [Udp (soa_request ["org"; ""]) "192.0.2.1"]).
  - vm_compute. reflexivity.
  - reflexivity.
  - intros (_ & Hanswer & _). apply Hanswer. reflexivity.
  - apply (misses_cons (T := model_server.transport (serves example_com))
             client ∅ "org" [] ["org"; ""] soa_miss ∅ ∅ []).
    + vm_compute. reflexivity.
    + reflexivity.
    + intros (_ & Hanswer & _). apply Hanswer. reflexivity.
    + apply misses_nil.
Defined.

Lemma find_domain_transport_failure_witness :
  _find_domain
    (T := model_server.transport (serves_but ["com"; ""] example_com))
    (L := library) client "www.example.com" ∅
  = (Raised (Exception PluginError
               (Format "Encountered error when making query: {0}"
                  [Lit "The DNS operation timed out."])),
     ∅,
     [Udp (soa_request ["www"; "example"; "com"; ""]) "192.0.2.1";
      Udp (soa_request example_com) "192.0.2.1"]).
Proof.
  apply (find_domain_transport_failure
           (T := model_server.transport (serves_but ["com"; ""] example_com))
           (L := library) client "www.example.com"
           ["www.example.com"] "example.com" ["com"] ∅ ∅ ∅
           [Udp (soa_request ["www"; "example"; "com"; ""]) "192.0.2.1"]
           example_com
           (Exception (OtherException "dns.exception.Timeout")
              (Lit "The DNS operation timed out."))).
  - vm_compute. reflexivity.
  - apply www_misses. reflexivity.
  - vm_compute. reflexivity.
  - reflexivity.
Defined.

Lemma add_txt_record_relative_owner_witness :
  exists update,
    sent (add_txt_record (T := model_server.transport (serves example_com))
            (L := library) client "www.example.com"
            "_acme-challenge.www.example.com" "token" 120 ∅)
    = [Udp (soa_request ["www"; "example"; "com"; ""]) "192.0.2.1";
       Udp (soa_request example_com) "192.0.2.1"]
      ++ [Tcp update "192.0.2.1"]
    /\ dns.origin update = Some ["example"; "com"; ""]
    /\ dns.question update =
         [dns.message.fresh_rrset ["example"; "com"; ""] dns.rdataclass.IN
            dns.rdatatype.SOA None]
    /\ dns.authority update =
         [{| dns.rr_name := ["_acme-challenge"; "www"];
             dns.rr_rdclass := dns.rdataclass.IN;
             dns.rr_rdtype := dns.rdatatype.TXT;
             dns.rr_deleting := None;
             dns.rr_ttl := 120;
             dns.rr_items := [["token"]] |}].
Proof.
  apply (add_txt_record_relative_owner
           (T := model_server.transport (serves example_com)) (L := library)
           client "www.example.com" "token" 120 ∅ ∅
           [Udp (soa_request ["www"; "example"; "com"; ""]) "192.0.2.1";
            Udp (soa_request example_com) "192.0.2.1"]
           ["token"]).
  - vm_compute. reflexivity.
  - reflexivity.
Defined.

Lemma add_then_del_restores_zone_witness :
  world_after
    (add_then_del (T := model_server.transport (serves example_com))
       (L := library) client "www.example.com"
       "_acme-challenge.www.example.com" "token" 120
       {[ (["mail"; "example"; "com"; ""], dns.rdatatype.TXT, ["v=spf1 -all"]) ]})
  = {[ (["mail"; "example"; "com"; ""], dns.rdatatype.TXT, ["v=spf1 -all"]) ]}.
Proof.
  apply (add_then_del_restores_zone (L := library) (serves example_com) client
           "www.example.com" "_acme-challenge.www.example.com" "token" 120).
  intros n o rd Hn Hrd.
  vm_compute in Hn. injection Hn as <-.
  cbn in Hrd. injection Hrd as <-.
  intros Hin. apply elem_of_singleton in Hin. discriminate.
Defined.

Lemma init_unknown_algorithm_is_md5_witness :
  __init__ (L := library) "192.0.2.1" "keyname" "secret" "hmac-sha256"
  = Returned {| server := "192.0.2.1";
                keyring := [(["keyname"; ""], "secret")];
                algorithm := dns.tsig.HMAC_MD5 |}.
Proof.
  apply (init_unknown_algorithm_is_md5 (L := library)
           "192.0.2.1" "keyname" "secret" "hmac-sha256").
  - intros Hin. repeat (apply elem_of_cons in Hin as [Hin|Hin]; [discriminate|]).
    apply elem_of_nil in Hin. exact Hin.
  - vm_compute. reflexivity.
Defined.

Lemma installer_errors_witness :
  (exists m, prepare (M := machine) false
             = Raised (Exception NoInstallationError m))
  /\ (exists m, fst (restart (M := machine) false)
                = Raised (Exception MisconfigurationError m)).
Proof.
  assert (H : forall m,
             fst (run_script (Machine := machine) false
                    (restart_cmd (Machine := machine)))
             <> Raised (Exception MisconfigurationError m)).
  { intros m. cbn. discriminate. }
  destruct (installer_errors (M := machine) false H) as (Hp & Hr & _).
  split.
  - apply Hp. reflexivity.
  - apply Hr. eexists. reflexivity.
Defined.

Lemma candidates_of_challenge_name_witness :
  dns_common.base_domain_name_guesses "_acme-challenge.foo.example.com."
  = ["foo.example.com"; "example.com"; "com"].
Proof.
  apply (candidates_of_challenge_name ["foo"; "example"; "com"] true).
  - discriminate.
  - repeat constructor; discriminate.
Defined.

(** * More on the client *)

Section ResolutionFacts.

Context {World : Type} {T : Transport World} {L : Library}.

(** a round whose guess is no name raises what the parser raised, and
    sends nothing *)
Lemma probe_unparsable self guess e w :
  guess_domain guess = Raised e ->
  probe self guess w = (Raised e, w, []).
Proof.
  intros Hd. unfold probe, bind, lift. rewrite Hd. reflexivity.
Qed.

(** Every run of the loop, read backwards from its result. *)
Lemma find_loop_inv self guesses w r w' packets :
  find_loop self guesses w = (r, w', packets) ->
  match r with
  | Returned (Some guess) =>
      exists pre post w1 probes domain response,
        guesses = pre ++ guess :: post
        /\ misses self w pre w1 probes
        /\ guess_domain guess = Returned domain
        /\ query_udp w1 (soa_request domain) (server self)
           = (Returned response, w')
        /\ authoritative_hit response
        /\ packets = probes ++ [Udp (soa_request domain) (server self)]
  | Returned None => misses self w guesses w' packets
  | Raised e =>
      exists pre guess post w1 probes,
        guesses = pre ++ guess :: post
        /\ misses self w pre w1 probes
        /\ ((exists domain cause,
               guess_domain guess = Returned domain
               /\ query_udp w1 (soa_request domain) (server self)
                  = (Raised cause, w')
               /\ e = Exception PluginError
                        (Format "Encountered error when making query: {0}"
                           [str cause])
               /\ packets = probes ++ [Udp (soa_request domain) (server self)])
            \/ (guess_domain guess = Raised e /\ w' = w1 /\ packets = probes))
  end.
Proof.
  revert w r w' packets.
  induction guesses as [|guess rest IH]; intros w r w' packets H.
  - cbn in H. injection H as <- <- <-. constructor.
  - cbn [find_loop] in H. unfold bind in H.
    destruct (guess_domain guess) as [domain|e] eqn:Hd.
    2:{ rewrite (probe_unparsable _ _ _ _ Hd) in H. injection H as <- <- <-.
        exists [], guess, rest, w, []. split; [reflexivity|].
        split; [constructor|]. right. auto. }
    destruct (query_udp w (soa_request domain) (server self))
      as [[response|cause] wa] eqn:Hq.
    2:{ rewrite (probe_raised _ _ _ _ _ _ Hd Hq) in H. injection H as <- <- <-.
        exists [], guess, rest, w, []. split; [reflexivity|].
        split; [constructor|]. left. exists domain, cause. auto. }
    rewrite (probe_returned _ _ _ _ _ _ Hd Hq) in H.
    destruct (authoritative_soa response) eqn:Ha.
    + cbn in H. injection H as <- <- <-.
      exists [], rest, w, [], domain, response.
      split; [reflexivity|]. split; [constructor|].
      split; [exact Hd|]. split; [exact Hq|].
      split; [apply authoritative_soa_spec; exact Ha|reflexivity].
    + assert (Hmiss : ~ authoritative_hit response).
      { intros Hh. apply authoritative_soa_spec in Hh. congruence. }
      destruct (find_loop self rest wa) as [[r1 w1] s1] eqn:Hl.
      injection H as <- <- <-.
      specialize (IH _ _ _ _ Hl).
      destruct r1 as [[g|]|e].
      * destruct IH as (pre & post & wb & probes & dom & resp & -> & Hm & Hgd
                        & Hgq & Hh & ->).
        exists (guess :: pre), post, wb,
          (Udp (soa_request domain) (server self) :: probes), dom, resp.
        split; [reflexivity|].
        split; [exact (misses_cons _ _ _ _ _ _ _ _ _ Hd Hq Hmiss Hm)|].
        auto.
      * exact (misses_cons _ _ _ _ _ _ _ _ _ Hd Hq Hmiss IH).
      * destruct IH as (pre & g & post & wb & probes & -> & Hm & Hc).
        exists (guess :: pre), g, post, wb,
          (Udp (soa_request domain) (server self) :: probes).
        split; [reflexivity|].
        split; [exact (misses_cons _ _ _ _ _ _ _ _ _ Hd Hq Hmiss Hm)|].
        destruct Hc as [(dom & cause & Hgd & Hgq & -> & ->)|(Hgd & -> & ->)].
        -- left. exists dom, cause. auto.
        -- right. auto.
Qed.

(** X1: whenever [_find_domain] returns a name, that name is one of the
    candidates, every candidate before it was probed and answered without
    an authoritative hit, and the answer to its own probe, the last packet
    sent, had response code NOERROR, a non-empty answer section and the AA
    flag. *)
Theorem find_domain_sound self domain_name w guess w' packets :
  _find_domain self domain_name w = (Returned guess, w', packets) ->
  exists pre post w1 probes domain response,
    base_domain_name_guesses domain_name = pre ++ guess :: post
    /\ misses self w pre w1 probes
    /\ guess_domain guess = Returned domain
    /\ query_udp w1 (soa_request domain) (server self) = (Returned response, w')
    /\ authoritative_hit response
    /\ packets = probes ++ [Udp (soa_request domain) (server self)].
Proof.
  unfold _find_domain, bind. intros H.
  destruct (find_loop self (base_domain_name_guesses domain_name) w)
    as [[[[g|]|e] w1] s1] eqn:Hl; cbn in H; try discriminate.
  injection H as <- <- <-. rewrite app_nil_r.
  exact (find_loop_inv _ _ _ _ _ _ Hl).
Qed.

(** X2: whenever [_find_domain] raises, it is for one of three reasons:
    every candidate was probed and none answered with an authoritative hit
    (the error names the domain and the candidates); or the transport
    raised on the probe of a candidate reached after misses (the error
    holds the text of the cause); or a candidate reached after misses is
    no DNS name, and then what the parser raised comes out as it is (it
    is not turned into a [PluginError]) and no probe is sent for that
    candidate. *)
Theorem find_domain_raises self domain_name w e w' packets :
  _find_domain self domain_name w = (Raised e, w', packets) ->
  (misses self w (base_domain_name_guesses domain_name) w' packets
   /\ e = Exception PluginError
            (Format "Unable to determine base domain for {0} using names: {1}."
               [Lit domain_name; Names (base_domain_name_guesses domain_name)]))
  \/ (exists pre guess post w1 probes,
        base_domain_name_guesses domain_name = pre ++ guess :: post
        /\ misses self w pre w1 probes
        /\ ((exists domain cause,
               guess_domain guess = Returned domain
               /\ query_udp w1 (soa_request domain) (server self)
                  = (Raised cause, w')
               /\ e = Exception PluginError
                        (Format "Encountered error when making query: {0}"
                           [str cause])
               /\ packets = probes ++ [Udp (soa_request domain) (server self)])
            \/ (guess_domain guess = Raised e /\ w' = w1 /\ packets = probes))).
Proof.
  unfold _find_domain, bind. intros H.
  destruct (find_loop self (base_domain_name_guesses domain_name) w)
    as [[[[g|]|e1] w1] s1] eqn:Hl; cbn in H; try discriminate.
  - injection H as <- <- <-. rewrite app_nil_r. left.
    split; [exact (find_loop_inv _ _ _ _ _ _ Hl)|reflexivity].
  - injection H as <- <- <-. right.
    exact (find_loop_inv _ _ _ _ _ _ Hl).
Qed.

(** X3: a candidate that is no DNS name (an empty label inside, a label of
    more than 63 octets, ...), reached after the candidates before it
    missed, makes [_find_domain] raise the exception of [dns.name]: the
    parsing is outside the [try], so the exception is not a [PluginError];
    nothing is sent for that candidate nor for those after it. *)
Theorem find_domain_unparsable_candidate self domain_name pre guess post
    w w1 probes e :
  base_domain_name_guesses domain_name = pre ++ guess :: post ->
  misses self w pre w1 probes ->
  guess_domain guess = Raised e ->
  _find_domain self domain_name w = (Raised e, w1, probes).
Proof.
  intros Hg Hm Hd. unfold _find_domain, bind. rewrite Hg.
  rewrite (find_loop_misses _ _ _ _ _ _ Hm).
  cbn [find_loop]. unfold bind.
  rewrite (probe_unparsable _ _ _ _ Hd). rewrite app_nil_r. reflexivity.
Qed.

(** The packets of the loop are the probes of a prefix of the guesses. *)
Lemma find_loop_packets self guesses w :
  exists k,
    (k <= length guesses)%nat
    /\ Forall2 (fun guess p =>
                  exists domain, guess_domain guess = Returned domain
                                 /\ p = Udp (soa_request domain) (server self))
         (take k guesses) (sent (find_loop self guesses w)).
Proof.
  assert (Hone : forall pre guess post probes domain,
    Forall2 (fun guess p =>
               exists domain, guess_domain guess = Returned domain
                              /\ p = Udp (soa_request domain) (server self))
      pre probes ->
    guess_domain guess = Returned domain ->
    exists k,
      (k <= length (pre ++ guess :: post))%nat
      /\ Forall2 (fun guess p =>
                    exists domain, guess_domain guess = Returned domain
                                   /\ p = Udp (soa_request domain) (server self))
           (take k (pre ++ guess :: post))
           (probes ++ [Udp (soa_request domain) (server self)])).
  { intros pre guess post probes domain Hp Hd.
    exists (length (pre ++ [guess])). split.
    - rewrite !length_app. cbn. lia.
    - replace (pre ++ guess :: post) with ((pre ++ [guess]) ++ post)
        by (rewrite <- app_assoc; reflexivity).
      rewrite take_app_length.
      apply Forall2_app; [exact Hp|].
      constructor; [exists domain; auto|constructor]. }
  assert (Hall : forall pre post probes,
    Forall2 (fun guess p =>
               exists domain, guess_domain guess = Returned domain
                              /\ p = Udp (soa_request domain) (server self))
      pre probes ->
    exists k,
      (k <= length (pre ++ post))%nat
      /\ Forall2 (fun guess p =>
                    exists domain, guess_domain guess = Returned domain
                                   /\ p = Udp (soa_request domain) (server self))
           (take k (pre ++ post)) probes).
  { intros pre post probes Hp. exists (length pre). split.
    - rewrite length_app. lia.
    - rewrite take_app_length. exact Hp. }
  unfold sent.
  destruct (find_loop self guesses w) as [[r w1] s1] eqn:Hl.
  pose proof (find_loop_inv _ _ _ _ _ _ Hl) as Hinv.
  destruct r as [[g|]|e]; cbn.
  - destruct Hinv as (pre & post & wa & probes & dom & resp & Hg & Hm & Hd
                      & Hq & Hh & ->).
    rewrite Hg.
    exact (Hone _ _ _ _ _ (misses_probes _ _ _ _ _ Hm) Hd).
  - rewrite <- (app_nil_r guesses).
    exact (Hall _ _ _ (misses_probes _ _ _ _ _ Hinv)).
  - destruct Hinv as (pre & g & post & wa & probes & Hg & Hm & Hc).
    rewrite Hg.
    destruct Hc as [(dom & cause & Hd & Hq & -> & ->)|(Hd & -> & ->)].
    + exact (Hone _ _ _ _ _ (misses_probes _ _ _ _ _ Hm) Hd).
    + exact (Hall _ _ _ (misses_probes _ _ _ _ _ Hm)).
Qed.

(** Zone resolution sends what its loop sends. *)
Lemma find_domain_sent self domain_name w :
  sent (_find_domain self domain_name w)
  = sent (find_loop self (base_domain_name_guesses domain_name) w).
Proof.
  unfold _find_domain, bind, sent.
  destruct (find_loop self (base_domain_name_guesses domain_name) w)
    as [[[[g|]|e] w1] s1]; cbn; try rewrite app_nil_r; reflexivity.
Qed.

(** X4: whatever the server answers, the packets [_find_domain] sends are
    the SOA probes of the first [k] candidates, for some [k]: one probe
    for each of them, in the order of the list, none left out and none
    sent twice. *)
Theorem find_domain_probes_in_order self domain_name w :
  exists k,
    (k <= length (base_domain_name_guesses domain_name))%nat
    /\ Forall2 (fun guess p =>
                  exists domain, guess_domain guess = Returned domain
                                 /\ p = Udp (soa_request domain) (server self))
         (take k (base_domain_name_guesses domain_name))
         (sent (_find_domain self domain_name w)).
Proof.
  rewrite find_domain_sent.
  destruct (find_loop_packets self (base_domain_name_guesses domain_name) w)
    as (k & Hk & Hp).
  exists k. split; [exact Hk|exact Hp].
Qed.

(** Every probe is an SOA query to the server of the client. *)
Lemma find_domain_addressed self domain_name w :
  Forall (fun p => is_soa_probe p
                   /\ match p with Udp _ a | Tcp _ a => a = server self end)
    (sent (_find_domain self domain_name w)).
Proof.
  rewrite find_domain_sent.
  destruct (find_loop_packets self (base_domain_name_guesses domain_name) w)
    as (k & _ & H2).
  induction H2 as [|g p l l' (d & _ & ->) _ IH]; constructor; [|exact IH].
  split; [|reflexivity].
  split; [exists d; reflexivity|reflexivity].
Qed.

(** X18: the name of a probe is the candidate as [dns.name.from_text]
    reads it.  [from_text] completes a relative text with the root, so
    the name is absolute already and the branch that concatenates the
    root is never taken: the round raises exactly when [from_text] does,
    and every name probed is absolute. *)
Theorem guess_domain_is_from_text (guess : string) :
  guess_domain guess = dns.name.from_text guess
  /\ forall domain, guess_domain guess = Returned domain ->
                    dns.name.is_absolute domain = true.
Proof.
  assert (H : guess_domain guess = dns.name.from_text guess).
  { unfold guess_domain.
    destruct (dns.name.from_text guess) as [domain|e] eqn:Hd; [|reflexivity].
    cbn. rewrite (proj1 (from_text_valid _ _ Hd)). reflexivity. }
  split; [exact H|].
  intros domain Hd. rewrite H in Hd. exact (proj1 (from_text_valid _ _ Hd)).
Qed.

End ResolutionFacts.

Section UpdateFacts.

Context {World : Type} {T : Transport World} {L : Library}.

(** The run of [add_txt_record] once the zone is found and the names and
    the value are parsed: one call of the transport, whose outcome
    decides. *)
Lemma add_txt_record_run self domain_name record_name record_content
    record_ttl w w1 probes domain n o rd update :
  _find_domain self domain_name w = (Returned domain, w1, probes) ->
  dns.name.from_text record_name = Returned n ->
  dns.name.from_text domain = Returned o ->
  rdata_from_text dns.rdataclass.IN dns.rdatatype.TXT record_content (Some o)
    = Returned rd ->
  dns.update.Update domain (keyring self) (algorithm self) = Returned update ->
  add_txt_record self domain_name record_name record_content record_ttl w
  = (let u := dns.update._add_rr update (dns.name.relativize n o) record_ttl
                rd dns.rdatatype.TXT None in
     match query_tcp w1 u (server self) with
     | (Returned _, w2) => (Returned tt, w2, probes ++ [Tcp u (server self)])
     | (Raised cause, w2) =>
         (Raised (Exception PluginError
                    (Format "Encountered error adding TXT record: {0}"
                       [str cause])),
          w2, probes ++ [Tcp u (server self)])
     end).
Proof.
  intros Hf Hn Ho Hrd Hu.
  unfold add_txt_record, bind. rewrite Hf.
  unfold lift. rewrite Hn, Ho. cbn. rewrite Hu. cbn.
  unfold dns.update.Update in Hu. rewrite Ho in Hu. cbn in Hu.
  injection Hu as <-.
  unfold update_add. cbn. rewrite Hrd. cbn.
  unfold try_except, tcp.
  destruct (query_tcp w1 _ (server self)) as [[response|cause] w2]; cbn.
  - destruct (dns.message.rcode response =? dns.rcode.NOERROR); reflexivity.
  - reflexivity.
Qed.

Lemma del_txt_record_run self domain_name record_name record_content
    w w1 probes domain n o rd update :
  _find_domain self domain_name w = (Returned domain, w1, probes) ->
  dns.name.from_text record_name = Returned n ->
  dns.name.from_text domain = Returned o ->
  rdata_from_text dns.rdataclass.IN dns.rdatatype.TXT record_content (Some o)
    = Returned rd ->
  dns.update.Update domain (keyring self) (algorithm self) = Returned update ->
  del_txt_record self domain_name record_name record_content w
  = (let u := dns.update._add_rr update (dns.name.relativize n o) 0
                rd dns.rdatatype.TXT (Some dns.rdataclass.NONE) in
     match query_tcp w1 u (server self) with
     | (Returned _, w2) => (Returned tt, w2, probes ++ [Tcp u (server self)])
     | (Raised cause, w2) =>
         (Raised (Exception PluginError
                    (Format "Encountered error deleting TXT record: {0}"
                       [str cause])),
          w2, probes ++ [Tcp u (server self)])
     end).
Proof.
  intros Hf Hn Ho Hrd Hu.
  unfold del_txt_record, bind. rewrite Hf.
  unfold lift. rewrite Hn, Ho. cbn. rewrite Hu. cbn.
  unfold dns.update.Update in Hu. rewrite Ho in Hu. cbn in Hu.
  injection Hu as <-.
  unfold update_delete. cbn. rewrite Hrd. cbn.
  unfold try_except, tcp.
  destruct (query_tcp w1 _ (server self)) as [[response|cause] w2]; cbn.
  - destruct (dns.message.rcode response =? dns.rcode.NOERROR); reflexivity.
  - reflexivity.
Qed.

(** The update of a zone name that parses. *)
Lemma Update_Returned domain o kr alg :
  dns.name.from_text domain = Returned o ->
  exists update,
    dns.update.Update domain kr alg = Returned update
    /\ dns.origin update = Some o
    /\ dns.zone_rdclass update = dns.rdataclass.IN
    /\ dns.question update =
         [dns.message.fresh_rrset o dns.rdataclass.IN dns.rdatatype.SOA None]
    /\ dns.authority update = []
    /\ dns.keyring update = Some kr
    /\ dns.keyname update = fst <$> head kr
    /\ dns.keyalgorithm update = alg
    /\ Z.land (Z.shiftr (dns.flags_ update) 11) 0xF = dns.opcode.UPDATE.
Proof.
  intros Ho. unfold dns.update.Update. rewrite Ho. cbn.
  eexists. split; [reflexivity|]. repeat split.
Qed.

(** X5: when zone resolution raises, [add_txt_record] and
    [del_txt_record] raise the same exception, the world is the one zone
    resolution left, and the packets sent are the probes only: no update
    is handed to the transport. *)
Theorem resolution_failure_sends_no_update self domain_name record_name
    record_content record_ttl w w1 probes e :
  _find_domain self domain_name w = (Raised e, w1, probes) ->
  add_txt_record self domain_name record_name record_content record_ttl w
  = (Raised e, w1, probes)
  /\ del_txt_record self domain_name record_name record_content w
     = (Raised e, w1, probes).
Proof.
  intros Hf. unfold add_txt_record, del_txt_record, bind.
  rewrite Hf. split; reflexivity.
Qed.

(** X6: when the transport raises on the update of [add_txt_record]
    (connection refused, timeout, a message that cannot be put on the
    wire), the operation raises a [PluginError] whose message is
    "Encountered error adding TXT record: {0}" formatted with the cause;
    the update was handed to the transport once, after the probes. *)
Theorem add_txt_record_transport_failure self domain_name record_name
    record_content record_ttl w w1 w2 probes domain n o rd update cause :
  _find_domain self domain_name w = (Returned domain, w1, probes) ->
  dns.name.from_text record_name = Returned n ->
  dns.name.from_text domain = Returned o ->
  rdata_from_text dns.rdataclass.IN dns.rdatatype.TXT record_content (Some o)
    = Returned rd ->
  dns.update.Update domain (keyring self) (algorithm self) = Returned update ->
  query_tcp w1
    (dns.update._add_rr update (dns.name.relativize n o) record_ttl rd
       dns.rdatatype.TXT None) (server self) = (Raised cause, w2) ->
  add_txt_record self domain_name record_name record_content record_ttl w
  = (Raised (Exception PluginError
               (Format "Encountered error adding TXT record: {0}" [str cause])),
     w2,
     probes ++
     [Tcp (dns.update._add_rr update (dns.name.relativize n o) record_ttl rd
             dns.rdatatype.TXT None) (server self)]).
Proof.
  intros Hf Hn Ho Hrd Hu Hq.
  rewrite (add_txt_record_run _ _ _ _ _ _ _ _ _ _ _ _ _ Hf Hn Ho Hrd Hu).
  cbn zeta. rewrite Hq. reflexivity.
Qed.

(** X7: the same for [del_txt_record]: the transport raising on its
    update gives a [PluginError] whose message is "Encountered error
    deleting TXT record: {0}" formatted with the cause. *)
Theorem del_txt_record_transport_failure self domain_name record_name
    record_content w w1 w2 probes domain n o rd update cause :
  _find_domain self domain_name w = (Returned domain, w1, probes) ->
  dns.name.from_text record_name = Returned n ->
  dns.name.from_text domain = Returned o ->
  rdata_from_text dns.rdataclass.IN dns.rdatatype.TXT record_content (Some o)
    = Returned rd ->
  dns.update.Update domain (keyring self) (algorithm self) = Returned update ->
  query_tcp w1
    (dns.update._add_rr update (dns.name.relativize n o) 0 rd
       dns.rdatatype.TXT (Some dns.rdataclass.NONE)) (server self)
  = (Raised cause, w2) ->
  del_txt_record self domain_name record_name record_content w
  = (Raised (Exception PluginError
               (Format "Encountered error deleting TXT record: {0}" [str cause])),
     w2,
     probes ++
     [Tcp (dns.update._add_rr update (dns.name.relativize n o) 0 rd
             dns.rdatatype.TXT (Some dns.rdataclass.NONE)) (server self)]).
Proof.
  intros Hf Hn Ho Hrd Hu Hq.
  rewrite (del_txt_record_run _ _ _ _ _ _ _ _ _ _ _ _ Hf Hn Ho Hrd Hu).
  cbn zeta. rewrite Hq. reflexivity.
Qed.

(** X8: whatever the server does, the packets of [add_txt_record] and of
    [del_txt_record] are SOA probes over UDP followed by at most one
    update over TCP, all of them addressed to the server of the client:
    the update comes after zone resolution, and it is never sent twice. *)
Theorem update_packets self domain_name record_name record_content
    record_ttl w :
  (exists probes tail,
     sent (add_txt_record self domain_name record_name record_content
             record_ttl w) = probes ++ tail
     /\ Forall (fun p => is_soa_probe p
                         /\ match p with Udp _ a | Tcp _ a => a = server self end)
          probes
     /\ (tail = [] \/ exists u, tail = [Tcp u (server self)]))
  /\ (exists probes tail,
        sent (del_txt_record self domain_name record_name record_content w)
        = probes ++ tail
        /\ Forall (fun p => is_soa_probe p
                            /\ match p with Udp _ a | Tcp _ a => a = server self end)
             probes
        /\ (tail = [] \/ exists u, tail = [Tcp u (server self)])).
Proof.
  pose proof (find_domain_addressed self domain_name w) as Hp.
  unfold add_txt_record, del_txt_record, bind, sent in *.
  destruct (_find_domain self domain_name w) as [[[domain|e] w1] probes];
    cbn in Hp.
  2:{ split; exists probes, []; rewrite app_nil_r; auto. }
  unfold lift.
  destruct (dns.name.from_text record_name) as [n|e]; cbn.
  2:{ split; exists probes, []; auto. }
  destruct (dns.name.from_text domain) as [o|e] eqn:Ho; cbn.
  2:{ split; exists probes, []; auto. }
  unfold dns.update.Update. rewrite Ho. cbn.
  unfold update_add, update_delete. cbn.
  destruct (rdata_from_text dns.rdataclass.IN dns.rdatatype.TXT record_content
              (Some o)) as [rd|e]; cbn.
  2:{ split; exists probes, []; auto. }
  unfold try_except, tcp.
  split.
  - destruct (query_tcp w1 _ (server self)) as [[response|cause] w2]; cbn.
    + destruct (dns.message.rcode response =? dns.rcode.NOERROR); cbn;
        eexists probes, _; (split; [reflexivity|]); split; eauto.
    + eexists probes, _. split; [reflexivity|]. split; eauto.
  - destruct (query_tcp w1 _ (server self)) as [[response|cause] w2]; cbn.
    + destruct (dns.message.rcode response =? dns.rcode.NOERROR); cbn;
        eexists probes, _; (split; [reflexivity|]); split; eauto.
    + eexists probes, _. split; [reflexivity|]. split; eauto.
Qed.

(** X9: the update of [del_txt_record], for any record name and any zone
    found: its zone is the zone found, with the SOA question of class IN;
    its update section is one RRset of type TXT whose owner is the record
    name relativized against the zone, with class NONE as the class of
    deletion, TTL 0 and the value as its only rdata; it carries the
    opcode UPDATE and the keyring, first key name and algorithm of the
    client. *)
Theorem del_txt_record_update self domain_name record_name record_content
    w w1 probes domain n o rd :
  _find_domain self domain_name w = (Returned domain, w1, probes) ->
  dns.name.from_text record_name = Returned n ->
  dns.name.from_text domain = Returned o ->
  rdata_from_text dns.rdataclass.IN dns.rdatatype.TXT record_content (Some o)
    = Returned rd ->
  exists u,
    sent (del_txt_record self domain_name record_name record_content w)
    = probes ++ [Tcp u (server self)]
    /\ dns.origin u = Some o
    /\ dns.question u =
         [dns.message.fresh_rrset o dns.rdataclass.IN dns.rdatatype.SOA None]
    /\ dns.authority u =
         [{| dns.rr_name := dns.name.relativize n o;
             dns.rr_rdclass := dns.rdataclass.IN;
             dns.rr_rdtype := dns.rdatatype.TXT;
             dns.rr_deleting := Some dns.rdataclass.NONE;
             dns.rr_ttl := 0;
             dns.rr_items := [rd] |}]
    /\ Z.land (Z.shiftr (dns.flags_ u) 11) 0xF = dns.opcode.UPDATE
    /\ dns.keyring u = Some (keyring self)
    /\ dns.keyname u = fst <$> head (keyring self)
    /\ dns.keyalgorithm u = algorithm self.
Proof.
  intros Hf Hn Ho Hrd.
  destruct (Update_Returned domain o (keyring self) (algorithm self) Ho)
    as (update & Hu & Horig & Hcls & Hq & Hauth & Hkr & Hkn & Hka & Hop).
  rewrite (del_txt_record_run _ _ _ _ _ _ _ _ _ _ _ _ Hf Hn Ho Hrd Hu).
  cbn zeta.
  exists (dns.update._add_rr update (dns.name.relativize n o) 0 rd
            dns.rdatatype.TXT (Some dns.rdataclass.NONE)).
  split.
  { destruct (query_tcp w1 _ (server self)) as [[response|cause] w2];
      reflexivity. }
  cbn. rewrite Hauth, Hcls. repeat split; assumption.
Qed.

(** X10: the record an update of [add_txt_record] names on the wire.  For
    any record name and any zone found, the update section is one RRset of
    type TXT and class IN with the TTL given and the value as its only
    rdata, and its owner, read against the zone of the update as the
    server reads it, is the record name up to the case of the letters:
    whichever ancestor zone resolution picks, and also when the record
    name is not below the zone, the record that is added is the one
    asked for. *)
Theorem add_txt_record_owner_on_wire self domain_name record_name
    record_content record_ttl w w1 probes domain n o rd :
  _find_domain self domain_name w = (Returned domain, w1, probes) ->
  dns.name.from_text record_name = Returned n ->
  dns.name.from_text domain = Returned o ->
  rdata_from_text dns.rdataclass.IN dns.rdatatype.TXT record_content (Some o)
    = Returned rd ->
  exists u owner,
    sent (add_txt_record self domain_name record_name record_content
            record_ttl w)
    = probes ++ [Tcp u (server self)]
    /\ dns.origin u = Some o
    /\ dns.authority u =
         [{| dns.rr_name := owner;
             dns.rr_rdclass := dns.rdataclass.IN;
             dns.rr_rdtype := dns.rdatatype.TXT;
             dns.rr_deleting := None;
             dns.rr_ttl := record_ttl;
             dns.rr_items := [rd] |}]
    /\ map dns.name.lower (dns.name.derelativize owner o)
       = map dns.name.lower n
    /\ dns.keyring u = Some (keyring self)
    /\ dns.keyname u = fst <$> head (keyring self)
    /\ dns.keyalgorithm u = algorithm self.
Proof.
  intros Hf Hn Ho Hrd.
  destruct (Update_Returned domain o (keyring self) (algorithm self) Ho)
    as (update & Hu & Horig & Hcls & Hq & Hauth & Hkr & Hkn & Hka & Hop).
  rewrite (add_txt_record_run _ _ _ _ _ _ _ _ _ _ _ _ _ Hf Hn Ho Hrd Hu).
  cbn zeta.
  exists (dns.update._add_rr update (dns.name.relativize n o) record_ttl rd
            dns.rdatatype.TXT None), (dns.name.relativize n o).
  split.
  { destruct (query_tcp w1 _ (server self)) as [[response|cause] w2];
      reflexivity. }
  destruct (from_text_valid _ _ Hn) as [Habs Hlast].
  destruct (from_text_valid _ _ Ho) as [Hoabs _].
  cbn. rewrite Hauth, Hcls.
  repeat split; try assumption.
  exact (relativize_owner n o Habs Hlast Hoabs).
Qed.

(** X19: a record name that is no DNS name.  The record name is parsed
    after zone resolution and outside the [try]: when the zone is found
    and the record name does not parse, [add_txt_record] and
    [del_txt_record] raise what [dns.name.from_text] raised (it is not a
    [PluginError]); the probes were sent by then, and no update is. *)
Theorem unparsable_record_name self domain_name record_name record_content
    record_ttl w w1 probes domain e :
  _find_domain self domain_name w = (Returned domain, w1, probes) ->
  dns.name.from_text record_name = Raised e ->
  add_txt_record self domain_name record_name record_content record_ttl w
  = (Raised e, w1, probes)
  /\ del_txt_record self domain_name record_name record_content w
     = (Raised e, w1, probes).
Proof.
  intros Hf Hn. unfold add_txt_record, del_txt_record, bind, lift.
  rewrite Hf, Hn. cbn. rewrite app_nil_r. split; reflexivity.
Qed.

End UpdateFacts.

Section ModelServerMore.

Context {L : Library}.
Variable soa : dns.Message -> string -> outcome dns.Message.

Let T : Transport (gset model_server.record) := model_server.transport soa.
Local Existing Instance T.

(** What [del_txt_record] does to the record set, and that its result
    does not depend on the record set. *)
Lemma del_model self domain_name record_name record_content :
  (exists e, forall zone,
     del_txt_record self domain_name record_name record_content zone
     = (Raised e, zone, sent (del_txt_record self domain_name record_name
                                record_content zone)))
  \/ (exists n o rd,
        dns.name.from_text record_name = Returned n
        /\ dns.name.is_absolute o = true
        /\ rdata_from_text dns.rdataclass.IN dns.rdatatype.TXT record_content
             (Some o) = Returned rd
        /\ forall zone,
            result (del_txt_record self domain_name record_name
                      record_content zone) = Returned tt
            /\ world_after (del_txt_record self domain_name record_name
                              record_content zone)
               = zone ∖ {[ (map dns.name.lower n, dns.rdatatype.TXT, rd) ]}).
Proof.
  destruct (find_domain_model soa self domain_name)
    as ([domain|e] & probes & Hf).
  2:{ left. exists e. intros zone. unfold del_txt_record, bind.
      rewrite Hf. reflexivity. }
  destruct (dns.name.from_text record_name) as [n|e] eqn:Hn.
  2:{ left. exists e. intros zone. unfold del_txt_record, bind, lift.
      rewrite Hf, Hn. reflexivity. }
  destruct (dns.name.from_text domain) as [o|e] eqn:Ho.
  2:{ left. exists e. intros zone. unfold del_txt_record, bind, lift.
      rewrite Hf, Hn, Ho. reflexivity. }
  destruct (rdata_from_text dns.rdataclass.IN dns.rdatatype.TXT record_content
              (Some o)) as [rd|e] eqn:Hrd.
  2:{ left. exists e. intros zone.
      unfold del_txt_record, bind, lift, update_delete, dns.update.Update.
      rewrite Hf, Hn, Ho. cbn. rewrite Hrd. reflexivity. }
  right. exists n, o, rd.
  destruct (from_text_valid _ _ Hn) as [Habs Hlast].
  pose proof (proj1 (from_text_valid _ _ Ho)) as Hoabs.
  split; [reflexivity|]. split; [exact Hoabs|]. split; [exact Hrd|].
  intros zone.
  rewrite <- (relativize_owner n o Habs Hlast Hoabs).
  unfold del_txt_record, bind, lift, update_delete, dns.update.Update.
  rewrite !Hf, !Hn, !Ho. cbn. rewrite !Hrd.
  split; reflexivity.
Qed.

(** X11: deleting a record that the zone does not hold.  Against the
    server that tracks records, [del_txt_record] for a TXT record that is
    not in the record set leaves the record set as it is; and whether the
    record is there or not makes no difference to what the operation
    returns or raises. *)
Theorem del_txt_record_absent (self : _RFC2136Client)
    (domain_name record_name record_content : string)
    (zone : gset model_server.record) :
  (forall n o rd,
     dns.name.from_text record_name = Returned n ->
     rdata_from_text dns.rdataclass.IN dns.rdatatype.TXT record_content o
       = Returned rd ->
     (map dns.name.lower n, dns.rdatatype.TXT, rd) ∉ zone) ->
  world_after (del_txt_record self domain_name record_name record_content zone)
  = zone
  /\ forall zone' : gset model_server.record,
       result (del_txt_record self domain_name record_name record_content zone')
       = result (del_txt_record self domain_name record_name record_content
                   zone).
Proof.
  intros Hfresh.
  destruct (del_model self domain_name record_name record_content)
    as [[e He] | (n & o & rd & Hn & Ho & Hrd & Hrun)].
  - split.
    + rewrite (He zone). reflexivity.
    + intros zone'. rewrite (He zone'), (He zone). reflexivity.
  - split.
    + destruct (Hrun zone) as [_ ->].
      specialize (Hfresh n (Some o) rd Hn Hrd).
      apply set_eq. intros x.
      rewrite elem_of_difference, elem_of_singleton.
      split; [intros [Hx _]; exact Hx|].
      intros Hx. split; [exact Hx|]. intros ->. exact (Hfresh Hx).
    + intros zone'.
      destruct (Hrun zone) as [-> _]. destruct (Hrun zone') as [-> _].
      reflexivity.
Qed.

(** X12: what a successful addition leaves.  Against the server that
    tracks records, when [add_txt_record] returns, the record set is the
    one before with the TXT record of the record name (in lower case) and
    the value added to it, whichever zone was resolved; the other
    records are untouched. *)
Theorem add_txt_record_effect (self : _RFC2136Client)
    (domain_name record_name record_content : string) (record_ttl : Z)
    (zone : gset model_server.record) :
  result (add_txt_record self domain_name record_name record_content
            record_ttl zone) = Returned tt ->
  exists n o rd,
    dns.name.from_text record_name = Returned n
    /\ rdata_from_text dns.rdataclass.IN dns.rdatatype.TXT record_content
         (Some o) = Returned rd
    /\ world_after (add_txt_record self domain_name record_name record_content
                      record_ttl zone)
       = {[ (map dns.name.lower n, dns.rdatatype.TXT, rd) ]} ∪ zone.
Proof.
  intros Hr.
  destruct (updates_model soa self domain_name record_name record_content
              record_ttl)
    as [Hfail | (n & o & rd & Hn & Ho & Hrd & Hrun)].
  - destruct (Hfail zone) as [_ [e He]].
    assert (Hx : @Raised unit e = Returned tt) by (rewrite <- He; exact Hr).
    discriminate.
  - exists n, o, rd. split; [exact Hn|]. split; [exact Hrd|].
    destruct (Hrun zone) as (_ & Hw & _).
    destruct (from_text_valid _ _ Hn) as [Habs Hlast].
    rewrite (relativize_owner n o Habs Hlast Ho) in Hw. exact Hw.
Qed.

(** X13: what a successful deletion leaves.  Against the server that
    tracks records, when [del_txt_record] returns, the record set is the
    one before without the TXT record of the record name (in lower case)
    and the value; the other records, also the other TXT records of that
    name, are untouched. *)
Theorem del_txt_record_effect (self : _RFC2136Client)
    (domain_name record_name record_content : string)
    (zone : gset model_server.record) :
  result (del_txt_record self domain_name record_name record_content zone)
  = Returned tt ->
  exists n o rd,
    dns.name.from_text record_name = Returned n
    /\ rdata_from_text dns.rdataclass.IN dns.rdatatype.TXT record_content
         (Some o) = Returned rd
    /\ world_after (del_txt_record self domain_name record_name record_content
                      zone)
       = zone ∖ {[ (map dns.name.lower n, dns.rdatatype.TXT, rd) ]}.
Proof.
  intros Hr.
  destruct (del_model self domain_name record_name record_content)
    as [[e He] | (n & o & rd & Hn & Ho & Hrd & Hrun)].
  - rewrite (He zone) in Hr. discriminate.
  - exists n, o, rd. split; [exact Hn|]. split; [exact Hrd|].
    exact (proj2 (Hrun zone)).
Qed.

(** The round trip of a client, with the two operations in sequence. *)
Lemma add_del_model (self : _RFC2136Client)
    (domain_name record_name record_content : string) (record_ttl : Z)
    (zone : gset model_server.record) :
  (forall n o rd,
     dns.name.from_text record_name = Returned n ->
     rdata_from_text dns.rdataclass.IN dns.rdatatype.TXT record_content o
       = Returned rd ->
     (map dns.name.lower n, dns.rdatatype.TXT, rd) ∉ zone) ->
  world_after
    (bind (add_txt_record self domain_name record_name record_content
             record_ttl)
       (fun _ => del_txt_record self domain_name record_name record_content)
       zone) = zone.
Proof.
  intros Hfresh.
  destruct (updates_model soa self domain_name record_name record_content
              record_ttl)
    as [Hfail | (n & o & rd & Hn & Ho & Hrd & Hrun)].
  - destruct (Hfail zone) as [Hw [e He]].
    unfold bind, world_after, result in *.
    destruct (add_txt_record self domain_name record_name record_content
                record_ttl zone) as [[r w1] s1].
    cbn in *. subst. reflexivity.
  - destruct (Hrun zone) as (Hr & Hw & _).
    unfold bind, world_after, result in *.
    destruct (add_txt_record self domain_name record_name record_content
                record_ttl zone) as [[r w1] s1].
    cbn in Hr, Hw. subst r w1.
    destruct (Hrun
                ({[(map dns.name.lower
                      (dns.name.derelativize (dns.name.relativize n o) o),
                    dns.rdatatype.TXT, rd)]} ∪ zone))
      as (_ & _ & Hd).
    destruct (del_txt_record self domain_name record_name record_content _)
      as [[r2 w2] s2].
    cbn in Hd |- *. subst w2.
    destruct (from_text_valid _ _ Hn) as [Habs Hlast].
    rewrite (relativize_owner n o Habs Hlast Ho).
    specialize (Hfresh n (Some o) rd Hn Hrd).
    apply set_eq. intros x.
    rewrite elem_of_difference, elem_of_union, elem_of_singleton.
    split.
    + intros [[->|Hx] Hne]; [destruct (Hne eq_refl)|exact Hx].
    + intros Hx. split; [right; exact Hx|].
      intros ->. exact (Hfresh Hx).
Qed.

(** X14: the challenge and its cleanup.  Against the server that tracks
    records, with credentials set and from a record set that does not hold
    the validation record, [_perform] followed by [_cleanup] for the same
    domain, validation name and validation leaves the record set as it
    was, also when one of them raises. *)
Theorem perform_then_cleanup_restores_zone (self : Authenticator.t)
    (domain validation_name validation : string)
    (zone : gset model_server.record) :
  (forall n o rd,
     dns.name.from_text validation_name = Returned n ->
     rdata_from_text dns.rdataclass.IN dns.rdatatype.TXT validation o
       = Returned rd ->
     (map dns.name.lower n, dns.rdatatype.TXT, rd) ∉ zone) ->
  world_after
    (bind (Authenticator._perform self domain validation_name validation)
       (fun _ => Authenticator._cleanup self domain validation_name validation)
       zone) = zone.
Proof.
  intros Hfresh.
  unfold Authenticator._perform, Authenticator._cleanup.
  destruct (Authenticator._get_rfc2136_client self) as [client|e] eqn:Hc.
  - pose proof (add_del_model client domain validation_name validation
                  Authenticator.ttl zone Hfresh) as H.
    unfold bind, lift, world_after in *. cbn.
    destruct (add_txt_record client domain validation_name validation
                Authenticator.ttl zone) as [[[u|e] w1] s1]; cbn in *.
    + destruct (del_txt_record client domain validation_name validation w1)
        as [[r2 w2] s2]. cbn in *. exact H.
    + exact H.
  - reflexivity.
Qed.

End ModelServerMore.

Section AuthenticatorFacts.

Context {World : Type} {T : Transport World} {L : Library}.

(** X15: credentials that cannot be used.  When the key name of the
    credentials is no DNS name or the secret is no base64, so that the
    keyring cannot be built, [_perform] and [_cleanup] raise what the
    parser raised (it is not a [PluginError]), the world is untouched and
    no packet is sent; the same holds before [_setup_credentials] has
    run, with an [AttributeError]. *)
Theorem unusable_credentials_send_nothing (self : Authenticator.t)
    (domain validation_name validation : string) (w : World) e :
  (Authenticator.credentials self = None
   /\ e = Exception (OtherException "AttributeError")
            (Lit "'NoneType' object has no attribute 'conf'"))
  \/ (exists conf,
        Authenticator.credentials self = Some conf
        /\ tsigkeyring_from_text (conf "name") (conf "secret") = Raised e) ->
  Authenticator._perform self domain validation_name validation w
  = (Raised e, w, [])
  /\ Authenticator._cleanup self domain validation_name validation w
     = (Raised e, w, []).
Proof.
  intros H.
  assert (Hc : Authenticator._get_rfc2136_client self = Raised e).
  { unfold Authenticator._get_rfc2136_client.
    destruct H as [[-> ->]|(conf & -> & Hk)]; [reflexivity|].
    unfold __init__. rewrite Hk. reflexivity. }
  unfold Authenticator._perform, Authenticator._cleanup, bind, lift.
  rewrite Hc. split; reflexivity.
Qed.

(** X16: the update of a challenge.  With credentials from which the
    client is built, and once the zone is found and the validation name
    and the validation are parsed, [_perform] hands to the transport, after
    the probes, one update addressed to the server of the credentials:
    its record has TTL 120, and it is signed with the key of the
    credentials and with the algorithm their algorithm name stands for in
    [ALGORITHMS], or HMAC-MD5 when the name is not there. *)
Theorem perform_update (self : Authenticator.t) conf kr
    (domain validation_name validation : string) (w w1 : World)
    probes zone n o rd :
  Authenticator.credentials self = Some conf ->
  tsigkeyring_from_text (conf "name") (conf "secret") = Returned kr ->
  _find_domain {| server := conf "server"; keyring := kr;
                  algorithm := default dns.tsig.HMAC_MD5
                                 (ALGORITHMS !! conf "algorithm") |}
    domain w = (Returned zone, w1, probes) ->
  dns.name.from_text validation_name = Returned n ->
  dns.name.from_text zone = Returned o ->
  rdata_from_text dns.rdataclass.IN dns.rdatatype.TXT validation (Some o)
    = Returned rd ->
  exists u,
    sent (Authenticator._perform self domain validation_name validation w)
    = probes ++ [Tcp u (conf "server")]
    /\ dns.origin u = Some o
    /\ dns.authority u =
         [{| dns.rr_name := dns.name.relativize n o;
             dns.rr_rdclass := dns.rdataclass.IN;
             dns.rr_rdtype := dns.rdatatype.TXT;
             dns.rr_deleting := None;
             dns.rr_ttl := 120;
             dns.rr_items := [rd] |}]
    /\ dns.keyring u = Some kr
    /\ dns.keyalgorithm u
       = default dns.tsig.HMAC_MD5 (ALGORITHMS !! conf "algorithm")
    /\ (conf "algorithm" ∉ ["HMAC-MD5"; "HMAC-SHA1"; "HMAC-SHA224";
                            "HMAC-SHA256"; "HMAC-SHA384"; "HMAC-SHA512"] ->
        dns.keyalgorithm u = dns.tsig.HMAC_MD5).
Proof.
  intros Hcred Hkr Hf Hn Ho Hrd.
  set (client := {| server := conf "server"; keyring := kr;
                    algorithm := default dns.tsig.HMAC_MD5
                                   (ALGORITHMS !! conf "algorithm") |}) in *.
  assert (Hc : Authenticator._get_rfc2136_client self = Returned client).
  { unfold Authenticator._get_rfc2136_client, __init__.
    rewrite Hcred, Hkr. reflexivity. }
  destruct (Update_Returned zone o (keyring client) (algorithm client) Ho)
    as (update & Hu & Horig & Hcls & Hq & Hauth & Hk & Hkn & Hka & Hop).
  unfold Authenticator._perform, bind, lift, sent. rewrite Hc.
  rewrite (add_txt_record_run client _ _ _ _ _ _ _ _ _ _ _ _ Hf Hn Ho Hrd Hu).
  cbn zeta.
  exists (dns.update._add_rr update (dns.name.relativize n o)
            Authenticator.ttl rd dns.rdatatype.TXT None).
  split.
  { destruct (query_tcp w1 _ (server client)) as [[response|cause] w2];
      reflexivity. }
  split; [exact Horig|].
  split.
  { unfold dns.update._add_rr. cbn [dns.authority].
    rewrite Hauth, Hcls. reflexivity. }
  split; [exact Hk|]. split; [exact Hka|].
  intros Hunknown.
  change (dns.keyalgorithm update = dns.tsig.HMAC_MD5).
  rewrite Hka. unfold client. cbn [algorithm].
  rewrite (ALGORITHMS_unknown _ Hunknown). reflexivity.
Qed.

End AuthenticatorFacts.

Section InstallerMore.

Context {System : Type} {M : Machine System}.

(** X17: what [restart] does with the other outcomes of the run.  An
    exception of [util.run_script] that is not a [SubprocessError] comes
    out of [restart] as it is, and a run that returns makes [restart]
    return; in every case the machine is left as the run left it. *)
Theorem restart_other_outcomes (sys : System) :
  snd (restart sys) = snd (run_script sys restart_cmd)
  /\ (forall out, fst (run_script sys restart_cmd) = Returned out ->
                  fst (restart sys) = Returned tt)
  /\ (forall err, fst (run_script sys restart_cmd) = Raised err ->
                  cls err <> SubprocessError ->
                  fst (restart sys) = Raised err).
Proof.
  unfold restart.
  destruct (run_script sys restart_cmd) as [[out|err] sys']; cbn.
  - split; [reflexivity|]. split; [reflexivity|discriminate].
  - split; [destruct (cls err); reflexivity|].
    split; [discriminate|].
    intros err' [= <-] Hc. destruct (cls err); cbn; congruence.
Qed.

End InstallerMore.

(** *** The further theorems with hypotheses, applied *)

Lemma find_domain_sound_witness :
  exists pre post,
    dns_common.base_domain_name_guesses "www.example.com"
    = pre ++ "example.com" :: post
    /\ length pre = 1%nat.
Proof.
  destruct (find_domain_sound
              (T := model_server.transport (serves example_com))
              (L := library) client "www.example.com" ∅ "example.com" ∅
              [Udp (soa_request ["www"; "example"; "com"; ""]) "192.0.2.1";
               Udp (soa_request example_com) "192.0.2.1"]
              ltac:(vm_compute; reflexivity))
    as (pre & post & w1 & probes & domain & response & Hg & Hm & Hd & Hq
        & Hh & Hp).
  exists pre, post. split; [exact Hg|].
  apply misses_probes in Hm. apply Forall2_length in Hm.
  apply (f_equal length) in Hp. rewrite length_app in Hp. cbn in Hp. lia.
Defined.

Lemma find_domain_raises_witness :
  misses (T := model_server.transport (serves example_com)) client ∅
    ["example.org"; "org"] ∅
    [Udp (soa_request ["example"; "org"; ""]) "192.0.2.1";
     Udp (soa_request ["org"; ""]) "192.0.2.1"].
Proof.
  destruct (find_domain_raises
              (T := model_server.transport (serves example_com))
              (L := library) client "example.org" ∅
              (Exception PluginError
                 (Format "Unable to determine base domain for {0} using names: {1}."
                    [Lit "example.org"; Names ["example.org"; "org"]]))
              ∅
              [Udp (soa_request ["example"; "org"; ""]) "192.0.2.1";
               Udp (soa_request ["org"; ""]) "192.0.2.1"]
              ltac:(vm_compute; reflexivity))
    as [[Hm _]|(pre & guess & post & w1 & probes & Hg & Hm & Hc)].
  - exact Hm.
  - exfalso.
    destruct Hc as [(domain & cause & _ & _ & He & _)|(Hd & _ & _)].
    + discriminate He.
    + change (base_domain_name_guesses (Library := library) "example.org")
        with ["example.org"; "org"] in Hg.
      destruct pre as [|g1 [|g2 [|g3 pre]]]; cbn in Hg.
      * injection Hg as <- _. vm_compute in Hd. discriminate.
      * injection Hg as _ <- _. vm_compute in Hd. discriminate.
      * discriminate.
      * discriminate.
Defined.

Lemma find_domain_unparsable_candidate_witness :
  _find_domain (T := model_server.transport (serves example_com))
    (L := library) client "a..b" ∅
  = (Raised (Exception EmptyLabel (Lit "A DNS label is empty.")), ∅, []).
Proof.
  apply (find_domain_unparsable_candidate
           (T := model_server.transport (serves example_com)) (L := library)
           client "a..b" [] "a..b" [".b"; "b"] ∅ ∅ []).
  - vm_compute. reflexivity.
  - apply misses_nil.
  - vm_compute. reflexivity.
Defined.

Lemma resolution_failure_sends_no_update_witness :
  sent (add_txt_record (T := model_server.transport (serves example_com))
          (L := library) client "example.org" "_acme-challenge.example.org"
          "token" 120 ∅)
  = [Udp (soa_request ["example"; "org"; ""]) "192.0.2.1";
     Udp (soa_request ["org"; ""]) "192.0.2.1"].
Proof.
  rewrite (proj1 (resolution_failure_sends_no_update
             (T := model_server.transport (serves example_com)) (L := library)
             client "example.org" "_acme-challenge.example.org" "token" 120
             ∅ ∅
             [Udp (soa_request ["example"; "org"; ""]) "192.0.2.1";
              Udp (soa_request ["org"; ""]) "192.0.2.1"]
             (Exception PluginError
                (Format "Unable to determine base domain for {0} using names: {1}."
                   [Lit "example.org"; Names ["example.org"; "org"]]))
             ltac:(vm_compute; reflexivity))).
  reflexivity.
Defined.

Lemma add_txt_record_transport_failure_witness :
  result (add_txt_record (T := tcp_down (serves example_com)) (L := library)
            client "example.com" "_acme-challenge.example.com" "token" 120 tt)
  = Raised (Exception PluginError
              (Format "Encountered error adding TXT record: {0}"
                 [Lit "[Errno 111] Connection refused"])).
Proof.
  destruct (Update_Returned "example.com" example_com (keyring client)
              (algorithm client) ltac:(vm_compute; reflexivity))
    as (update & Hu & _).
  rewrite (add_txt_record_transport_failure
             (T := tcp_down (serves example_com)) (L := library)
             client "example.com" "_acme-challenge.example.com" "token" 120
             tt tt tt [Udp (soa_request example_com) "192.0.2.1"]
             "example.com" ["_acme-challenge"; "example"; "com"; ""]
             example_com ["token"] update
             (Exception (OtherException "ConnectionRefusedError")
                (Lit "[Errno 111] Connection refused"))
             ltac:(vm_compute; reflexivity) ltac:(vm_compute; reflexivity)
             ltac:(vm_compute; reflexivity) ltac:(reflexivity) Hu
             ltac:(reflexivity)).
  reflexivity.
Defined.

Lemma del_txt_record_transport_failure_witness :
  result (del_txt_record (T := tcp_down (serves example_com)) (L := library)
            client "example.com" "_acme-challenge.example.com" "token" tt)
  = Raised (Exception PluginError
              (Format "Encountered error deleting TXT record: {0}"
                 [Lit "[Errno 111] Connection refused"])).
Proof.
  destruct (Update_Returned "example.com" example_com (keyring client)
              (algorithm client) ltac:(vm_compute; reflexivity))
    as (update & Hu & _).
  rewrite (del_txt_record_transport_failure
             (T := tcp_down (serves example_com)) (L := library)
             client "example.com" "_acme-challenge.example.com" "token"
             tt tt tt [Udp (soa_request example_com) "192.0.2.1"]
             "example.com" ["_acme-challenge"; "example"; "com"; ""]
             example_com ["token"] update
             (Exception (OtherException "ConnectionRefusedError")
                (Lit "[Errno 111] Connection refused"))
             ltac:(vm_compute; reflexivity) ltac:(vm_compute; reflexivity)
             ltac:(vm_compute; reflexivity) ltac:(reflexivity) Hu
             ltac:(reflexivity)).
  reflexivity.
Defined.

Lemma del_txt_record_update_witness :
  exists u,
    sent (del_txt_record (T := model_server.transport (serves example_com))
            (L := library) client "www.example.com"
            "_acme-challenge.www.example.com" "token" ∅)
    = [Udp (soa_request ["www"; "example"; "com"; ""]) "192.0.2.1";
       Udp (soa_request example_com) "192.0.2.1"] ++ [Tcp u "192.0.2.1"]
    /\ dns.authority u =
         [{| dns.rr_name := ["_acme-challenge"; "www"];
             dns.rr_rdclass := dns.rdataclass.IN;
             dns.rr_rdtype := dns.rdatatype.TXT;
             dns.rr_deleting := Some 254;
             dns.rr_ttl := 0;
             dns.rr_items := [["token"]] |}].
Proof.
  destruct (del_txt_record_update
              (T := model_server.transport (serves example_com)) (L := library)
              client "www.example.com" "_acme-challenge.www.example.com"
              "token" ∅ ∅
              [Udp (soa_request ["www"; "example"; "com"; ""]) "192.0.2.1";
               Udp (soa_request example_com) "192.0.2.1"]
              "example.com" ["_acme-challenge"; "www"; "example"; "com"; ""]
              example_com ["token"]
              ltac:(vm_compute; reflexivity) ltac:(vm_compute; reflexivity)
              ltac:(vm_compute; reflexivity) ltac:(reflexivity))
    as (u & Hs & _ & _ & Ha & _).
  exists u. split; [exact Hs|exact Ha].
Defined.

Lemma add_txt_record_owner_on_wire_witness :
  exists u,
    sent (add_txt_record (T := model_server.transport (serves example_com))
            (L := library) client "www.example.com"
            "_acme-challenge.WWW.Example.COM" "token" 60 ∅)
    = [Udp (soa_request ["www"; "example"; "com"; ""]) "192.0.2.1";
       Udp (soa_request example_com) "192.0.2.1"] ++ [Tcp u "192.0.2.1"]
    /\ exists owner,
         dns.rr_name <$> dns.authority u = [owner]
         /\ map dns.name.lower (dns.name.derelativize owner example_com)
            = ["_acme-challenge"; "www"; "example"; "com"; ""].
Proof.
  destruct (add_txt_record_owner_on_wire
              (T := model_server.transport (serves example_com)) (L := library)
              client "www.example.com" "_acme-challenge.WWW.Example.COM"
              "token" 60 ∅ ∅
              [Udp (soa_request ["www"; "example"; "com"; ""]) "192.0.2.1";
               Udp (soa_request example_com) "192.0.2.1"]
              "example.com" ["_acme-challenge"; "WWW"; "Example"; "COM"; ""]
              example_com ["token"]
              ltac:(vm_compute; reflexivity) ltac:(vm_compute; reflexivity)
              ltac:(vm_compute; reflexivity) ltac:(reflexivity))
    as (u & owner & Hs & _ & Ha & Ho & _).
  exists u. split; [exact Hs|].
  exists owner. split; [rewrite Ha; reflexivity|exact Ho].
Defined.

(** no record of the zone is the validation record *)
Lemma mail_zone_fresh (name content : string) n :
  dns.name.from_text name = Returned n ->
  map dns.name.lower n <> ["mail"; "example"; "com"; ""] ->
  forall (n' : dns.name.Name) (o : option dns.name.Name) (rd : list string),
    dns.name.from_text name = Returned n' ->
    rdata_from_text (Library := library) dns.rdataclass.IN dns.rdatatype.TXT
      content o = Returned rd ->
    (map dns.name.lower n', dns.rdatatype.TXT, rd)
    ∉ ({[ (["mail"; "example"; "com"; ""], dns.rdatatype.TXT, ["v=spf1 -all"]) ]}
        : gset model_server.record).
Proof.
  intros Hn Hne n' o rd Hn' _ Hin.
  rewrite Hn in Hn'. injection Hn' as <-.
  apply elem_of_singleton in Hin. injection Hin as Hin _. exact (Hne Hin).
Defined.

Lemma del_txt_record_absent_witness :
  world_after
    (del_txt_record (T := model_server.transport (serves example_com))
       (L := library) client "www.example.com"
       "_acme-challenge.www.example.com" "token"
       {[ (["mail"; "example"; "com"; ""], dns.rdatatype.TXT, ["v=spf1 -all"]) ]})
  = {[ (["mail"; "example"; "com"; ""], dns.rdatatype.TXT, ["v=spf1 -all"]) ]}.
Proof.
  apply (del_txt_record_absent (L := library) (serves example_com) client
           "www.example.com" "_acme-challenge.www.example.com" "token").
  apply (mail_zone_fresh _ _ ["_acme-challenge"; "www"; "example"; "com"; ""]).
  - vm_compute. reflexivity.
  - vm_compute. discriminate.
Defined.

Lemma add_txt_record_effect_witness :
  exists n o rd,
    dns.name.from_text "_acme-challenge.www.example.com" = Returned n
    /\ rdata_from_text (Library := library) dns.rdataclass.IN dns.rdatatype.TXT
         "token" (Some o) = Returned rd
    /\ world_after
         (add_txt_record (T := model_server.transport (serves example_com))
            (L := library) client "www.example.com"
            "_acme-challenge.www.example.com" "token" 120 ∅)
       = {[ (map dns.name.lower n, dns.rdatatype.TXT, rd) ]} ∪ ∅.
Proof.
  apply (add_txt_record_effect (L := library) (serves example_com) client
           "www.example.com" "_acme-challenge.www.example.com" "token" 120 ∅).
  vm_compute. reflexivity.
Defined.

Lemma del_txt_record_effect_witness :
  exists n o rd,
    dns.name.from_text "_acme-challenge.www.example.com" = Returned n
    /\ rdata_from_text (Library := library) dns.rdataclass.IN dns.rdatatype.TXT
         "token" (Some o) = Returned rd
    /\ world_after
         (del_txt_record (T := model_server.transport (serves example_com))
            (L := library) client "www.example.com"
            "_acme-challenge.www.example.com" "token" ∅)
       = ∅ ∖ {[ (map dns.name.lower n, dns.rdatatype.TXT, rd) ]}.
Proof.
  apply (del_txt_record_effect (L := library) (serves example_com) client
           "www.example.com" "_acme-challenge.www.example.com" "token" ∅).
  vm_compute. reflexivity.
Defined.

Lemma perform_then_cleanup_restores_zone_witness :
  world_after
    (bind
       (Authenticator._perform
          (T := model_server.transport (serves example_com)) (L := library)
          {| Authenticator.credentials := Some conf |} "www.example.com"
          "_acme-challenge.www.example.com" "token")
       (fun _ =>
          Authenticator._cleanup
            (T := model_server.transport (serves example_com)) (L := library)
            {| Authenticator.credentials := Some conf |} "www.example.com"
            "_acme-challenge.www.example.com" "token")
       {[ (["mail"; "example"; "com"; ""], dns.rdatatype.TXT, ["v=spf1 -all"]) ]})
  = {[ (["mail"; "example"; "com"; ""], dns.rdatatype.TXT, ["v=spf1 -all"]) ]}.
Proof.
  apply (perform_then_cleanup_restores_zone (L := library)
           (serves example_com) {| Authenticator.credentials := Some conf |}
           "www.example.com" "_acme-challenge.www.example.com" "token").
  apply (mail_zone_fresh _ _ ["_acme-challenge"; "www"; "example"; "com"; ""]).
  - vm_compute. reflexivity.
  - vm_compute. discriminate.
Defined.

Lemma unusable_credentials_send_nothing_witness :
  Authenticator._perform (T := model_server.transport (serves example_com))
    (L := strict_library) {| Authenticator.credentials := Some conf |}
    "www.example.com" "_acme-challenge.www.example.com" "token" ∅
  = (Raised (Exception (OtherException "binascii.Error")
               (Lit "Incorrect padding")), ∅, []).
Proof.
  apply (unusable_credentials_send_nothing
           (T := model_server.transport (serves example_com))
           (L := strict_library) {| Authenticator.credentials := Some conf |}
           "www.example.com" "_acme-challenge.www.example.com" "token" ∅).
  right. exists conf. split; [reflexivity|]. vm_compute. reflexivity.
Defined.

Lemma perform_update_witness :
  exists u,
    sent (Authenticator._perform
            (T := model_server.transport (serves example_com)) (L := library)
            {| Authenticator.credentials := Some conf |} "www.example.com"
            "_acme-challenge.www.example.com" "token" ∅)
    = [Udp (soa_request ["www"; "example"; "com"; ""]) "192.0.2.1";
       Udp (soa_request example_com) "192.0.2.1"] ++ [Tcp u "192.0.2.1"]
    /\ dns.rr_ttl <$> dns.authority u = [120]
    /\ dns.keyalgorithm u = dns.tsig.HMAC_SHA512.
Proof.
  destruct (perform_update
              (T := model_server.transport (serves example_com)) (L := library)
              {| Authenticator.credentials := Some conf |} conf
              [(["keyname"; ""], "secret")]
              "www.example.com" "_acme-challenge.www.example.com" "token" ∅ ∅
              [Udp (soa_request ["www"; "example"; "com"; ""]) "192.0.2.1";
               Udp (soa_request example_com) "192.0.2.1"]
              "example.com" ["_acme-challenge"; "www"; "example"; "com"; ""]
              example_com ["token"]
              ltac:(reflexivity) ltac:(vm_compute; reflexivity)
              ltac:(vm_compute; reflexivity) ltac:(vm_compute; reflexivity)
              ltac:(vm_compute; reflexivity) ltac:(reflexivity))
    as (u & Hs & _ & Ha & _ & Hk & _).
  exists u. split; [exact Hs|]. split; [rewrite Ha; reflexivity|].
  rewrite Hk. vm_compute. reflexivity.
Defined.

Lemma unparsable_record_name_witness :
  add_txt_record (T := model_server.transport (serves example_com))
    (L := library) client "example.com" "_acme-challenge..example.com"
    "token" 120 ∅
  = (Raised (Exception EmptyLabel (Lit "A DNS label is empty.")), ∅,
     [Udp (soa_request example_com) "192.0.2.1"]).
Proof.
  apply (unparsable_record_name
           (T := model_server.transport (serves example_com)) (L := library)
           client "example.com" "_acme-challenge..example.com" "token" 120
           ∅ ∅ [Udp (soa_request example_com) "192.0.2.1"] "example.com").
  - vm_compute. reflexivity.
  - vm_compute. reflexivity.
Defined.
